(** * coredns-netbox-plugin: the query-to-resource-record engine

    A shallow embedding of [querydns.go] (the record model and the two
    lookups against the NetBox DNS plugin) and of the plugin's handler
    ([ServeDNS], [queryNative], [queryDNSPlugin], [dnserror] and the
    record builders [a], [aaaa], [ptr]), followed by the properties of
    the engine.

    Conventions.
    - Go's fixed-width integers are [Z] with the wrap-around written out.
    - Go strings are [string]; the few functions of the Go standard
      library that the code calls are modelled next to their use, in a
      module named after the Go package.
    - What the process exchanges with the outside (the HTTP backend, the
      next plugin of the chain, the response writer) is recorded in a
      trace of events; the code is a state-passing program over it. *)

From Stdlib Require Import ZArith String Ascii List Bool Lia.
From Stdlib Require Import Strings.Byte.
From stdpp Require Import base option strings list gmap.

Import ListNotations.
Local Open Scope string_scope.
Local Open Scope list_scope.
Local Open Scope Z_scope.

(** ** The Go standard library, as far as the engine uses it *)

Module gostrings.

(** [strings.Split(s, sep)] for a one-byte separator: the substrings
    between the occurrences of [sep]; one more than there are
    occurrences, so never empty. *)
Fixpoint Split (s : string) (sep : ascii) : list string :=
  match s with
  | EmptyString => [EmptyString]
  | String c rest =>
      if Ascii.eqb c sep then EmptyString :: Split rest sep
      else match Split rest sep with
           | hd :: tl => String c hd :: tl
           | [] => [String c EmptyString]
           end
  end.

(** [strings.TrimRight(s, cutset)] for a one-byte cutset: every
    trailing occurrence is removed. *)
Fixpoint TrimRight (s : string) (cut : ascii) : string :=
  match s with
  | EmptyString => EmptyString
  | String c rest =>
      match TrimRight rest cut with
      | EmptyString => if Ascii.eqb c cut then EmptyString else String c EmptyString
      | kept => String c kept
      end
  end.

(** [strings.TrimSuffix(s, suffix)] for a one-byte suffix: at most one
    trailing occurrence is removed. *)
Fixpoint TrimSuffix (s : string) (suffix : ascii) : string :=
  match s with
  | EmptyString => EmptyString
  | String c EmptyString => if Ascii.eqb c suffix then EmptyString else s
  | String c rest => String c (TrimSuffix rest suffix)
  end.

End gostrings.

Module strconv.

Definition digit (c : ascii) : option Z :=
  let n := Z.of_nat (nat_of_ascii c) in
  if (48 <=? n) && (n <=? 57) then Some (n - 48) else None.

Fixpoint digits (s : string) (acc : Z) : option Z :=
  match s with
  | EmptyString => Some acc
  | String c rest =>
      match digit c with
      | Some d => digits rest (acc * 10 + d)
      | None => None
      end
  end.

(** [strconv.ParseUint(s, 10, _)] before the range check: a non-empty
    run of decimal digits (base 10 admits no underscore). *)
Definition ParseUint10 (s : string) : option Z :=
  match s with
  | EmptyString => None
  | _ => digits s 0
  end.

(** [strconv.ParseInt(s, 10, bitSize)]: [Some n] when the call returns
    [n] with a nil error, [None] when it returns an error (syntax or
    range).  An optional sign, then digits; the magnitude must be below
    [2^(bitSize-1)], or equal to it for a negative number. *)
Definition ParseInt (s : string) (bitSize : Z) : option Z :=
  match s with
  | EmptyString => None
  | String c rest =>
      let '(neg, body) :=
        if Ascii.eqb c "+"%char then (false, rest)
        else if Ascii.eqb c "-"%char then (true, rest)
        else (false, s) in
      match ParseUint10 body with
      | None => None
      | Some un =>
          let cutoff := 2 ^ (bitSize - 1) in
          if negb neg && (cutoff <=? un) then None
          else if neg && (cutoff <? un) then None
          else Some (if neg then - un else un)
      end
  end.

End strconv.

Module net.

(** [net.IP] is a byte slice; [nil] is the empty list. *)
Definition IP : Type := list Byte.byte.

Definition nilIP : IP := [].

End net.

(** ** github.com/miekg/dns: resource records and messages *)

Module dns.

Definition TypeA : Z := 1.
Definition TypeNS : Z := 2.
Definition TypeCNAME : Z := 5.
Definition TypeSOA : Z := 6.
Definition TypeNULL : Z := 10.
Definition TypePTR : Z := 12.
Definition TypeMX : Z := 15.
Definition TypeTXT : Z := 16.
Definition TypeAAAA : Z := 28.

Definition ClassINET : Z := 1.

Definition RcodeSuccess : Z := 0.
Definition RcodeServerFailure : Z := 2.
Definition RcodeNameError : Z := 3.

Record RR_Header : Type := mkHeader
  { Name : string; Rrtype : Z; Class : Z; Ttl : Z }.

(** The zero value of [RR_Header], as in [&dns.NULL{}]. *)
Definition zeroHeader : RR_Header :=
  {| Name := ""; Rrtype := 0; Class := 0; Ttl := 0 |}.

(** The record types the engine builds. *)
Inductive RR : Type :=
| A (Hdr : RR_Header) (addr : net.IP)
| AAAA (Hdr : RR_Header) (addr : net.IP)
| CNAME (Hdr : RR_Header) (Target : string)
| PTR (Hdr : RR_Header) (Ptr : string)
| NS (Hdr : RR_Header) (Ns : string)
| MX (Hdr : RR_Header) (Preference : Z) (Mx : string)
| TXT (Hdr : RR_Header) (Txt : list string)
| SOA (Hdr : RR_Header) (Ns Mbox : string)
      (Serial Refresh Retry Expire Minttl : Z)
| NULL (Hdr : RR_Header) (Data : string).

Definition Header (rr : RR) : RR_Header :=
  match rr with
  | A h _ | AAAA h _ | CNAME h _ | PTR h _ | NS h _ | MX h _ _
  | TXT h _ | SOA h _ _ _ _ _ _ _ | NULL h _ => h
  end.

(** [&dns.NULL{}] *)
Definition NULL0 : RR := NULL zeroHeader "".

Definition isNULL (rr : RR) : bool :=
  match rr with NULL _ _ => true | _ => false end.

Record Question : Type := mkQuestion
  { Qname : string; Qtype : Z; Qclass : Z }.

(** The fields of [dns.Msg] that the handler reads or writes. *)
Record Msg : Type := mkMsg
  { Id : Z;
    Response : bool;
    Authoritative : bool;
    Rcode : Z;
    Questions : list Question;
    Answer : list RR }.

(** [new(dns.Msg)] *)
Definition newMsg : Msg :=
  {| Id := 0; Response := false; Authoritative := false; Rcode := 0;
     Questions := []; Answer := [] |}.

(** [m.SetReply(request)] *)
Definition SetReply (m request : Msg) : Msg :=
  {| Id := Id request;
     Response := true;
     Authoritative := Authoritative m;
     Rcode := RcodeSuccess;
     Questions := match Questions request with
                  | q :: _ => [q]
                  | [] => Questions m
                  end;
     Answer := Answer m |}.

(** [m.SetRcode(request, rcode)] *)
Definition SetRcode (m request : Msg) (rcode : Z) : Msg :=
  let m' := SetReply m request in
  {| Id := Id m'; Response := Response m'; Authoritative := Authoritative m';
     Rcode := rcode; Questions := Questions m'; Answer := Answer m' |}.

Definition setAuthoritative (m : Msg) (b : bool) : Msg :=
  {| Id := Id m; Response := Response m; Authoritative := b;
     Rcode := Rcode m; Questions := Questions m; Answer := Answer m |}.

Definition setAnswer (m : Msg) (rrs : list RR) : Msg :=
  {| Id := Id m; Response := Response m; Authoritative := Authoritative m;
     Rcode := Rcode m; Questions := Questions m; Answer := rrs |}.

End dns.

(** ** querydns.go: the record model *)

Abbreviation DNSRecordType := string (only parsing).

Definition DNSRecordTypeA : DNSRecordType := "A".
Definition DNSRecordTypeAAAA : DNSRecordType := "AAAA".
Definition DNSRecordTypePTR : DNSRecordType := "PTR".
Definition DNSRecordTypeCNAME : DNSRecordType := "CNAME".
Definition DNSRecordTypeNS : DNSRecordType := "NS".
Definition DNSRecordTypeSOA : DNSRecordType := "SOA".
Definition DNSRecordTypeMX : DNSRecordType := "MX".
Definition DNSRecordTypeTXT : DNSRecordType := "TXT".

Definition DNSRecordReverseMap : gmap string Z :=
  <[DNSRecordTypeA := dns.TypeA]>
  (<[DNSRecordTypeAAAA := dns.TypeAAAA]>
  (<[DNSRecordTypePTR := dns.TypePTR]>
  (<[DNSRecordTypeCNAME := dns.TypeCNAME]>
  (<[DNSRecordTypeNS := dns.TypeNS]>
  (<[DNSRecordTypeSOA := dns.TypeSOA]>
  (<[DNSRecordTypeMX := dns.TypeMX]>
  (<[DNSRecordTypeTXT := dns.TypeTXT]> ∅))))))).

(** The supported set of record types, as a predicate on the type string. *)
Definition supportedRecordTypes : list string :=
  [DNSRecordTypeA; DNSRecordTypeAAAA; DNSRecordTypePTR; DNSRecordTypeCNAME;
   DNSRecordTypeNS; DNSRecordTypeSOA; DNSRecordTypeMX; DNSRecordTypeTXT].

Module DNSRecord.

Record t : Type := mk
  { Type_ : DNSRecordType;
    TTL : Z;                     (* uint32 *)
    Value : string;
    AbsoluteValue : string;
    FQDN : string }.

Section RR.

(** [net.ParseIP]: the parsed address, [nil] when the text is not an
    IP address literal. *)
Variable ParseIP : string -> net.IP.

(** [func (r *DNSRecord) RR() dns.RR] *)
Definition RR (r : t) : dns.RR :=
  let header :=
    {| dns.Name := FQDN r;
       dns.Rrtype := default 0 (DNSRecordReverseMap !! Type_ r);
       dns.Class := dns.ClassINET;
       dns.Ttl := TTL r |} in
  if String.eqb (Type_ r) DNSRecordTypeA then
    dns.A header (ParseIP (AbsoluteValue r))
  else if String.eqb (Type_ r) DNSRecordTypeAAAA then
    dns.AAAA header (ParseIP (AbsoluteValue r))
  else if String.eqb (Type_ r) DNSRecordTypeCNAME then
    dns.CNAME header (AbsoluteValue r)
  else if String.eqb (Type_ r) DNSRecordTypePTR then
    dns.PTR header (AbsoluteValue r)
  else if String.eqb (Type_ r) DNSRecordTypeNS then
    dns.NS header (AbsoluteValue r)
  else if String.eqb (Type_ r) DNSRecordTypeMX then
    (* we receive "[pref] [host]" from Netbox Plugin *)
    let prefAndHost := gostrings.Split (AbsoluteValue r) " " in
    match prefAndHost with
    | [pref; host] =>
        match strconv.ParseInt pref 32 with
        | None => dns.NULL0
        | Some preference =>
            (* uint16(preference) *)
            dns.MX header (preference mod 2 ^ 16) host
        end
    | _ => dns.NULL0      (* len(prefAndHost) != 2 *)
    end
  else if String.eqb (Type_ r) DNSRecordTypeTXT then
    dns.TXT header [AbsoluteValue r]
  else
    dns.NULL0.

End RR.

End DNSRecord.

Module DNSZone.

Module MName.
Record t : Type := mk { Name : string }.
End MName.

Record t : Type := mk
  { Name : string;
    MName : MName.t;
    RName : string;
    Serial : Z;                  (* uint32, as are the five below *)
    Refresh : Z;
    Retry : Z;
    Expire : Z;
    Minimum : Z;
    TTL : Z }.

(** [func (z *DNSZone) RR() dns.RR] *)
Definition RR (z : t) : dns.RR :=
  dns.SOA
    {| dns.Name := Name z +:+ "."; dns.Rrtype := dns.TypeSOA;
       dns.Class := dns.ClassINET; dns.Ttl := TTL z |}
    (MName.Name (MName z) +:+ ".")
    (RName z +:+ ".")
    (Serial z) (Refresh z) (Retry z) (Expire z) (Minimum z).

End DNSZone.

Abbreviation DNSQuerySet := string (only parsing).

Definition DNSQuerySetA : DNSQuerySet := "type=A&type=CNAME".
Definition DNSQuerySetAAAA : DNSQuerySet := "type=AAAA&type=CNAME".
Definition DNSQuerySetPTR : DNSQuerySet := "type=PTR".
Definition DNSQuerySetCNAME : DNSQuerySet := "type=CNAME".
Definition DNSQuerySetNS : DNSQuerySet := "type=NS".
Definition DNSQuerySetMX : DNSQuerySet := "type=MX".
Definition DNSQuerySetTXT : DNSQuerySet := "type=TXT".

Definition DNSQueryReverseMap : gmap Z string :=
  <[dns.TypeA := DNSQuerySetA]>
  (<[dns.TypeAAAA := DNSQuerySetAAAA]>
  (<[dns.TypePTR := DNSQuerySetPTR]>
  (<[dns.TypeCNAME := DNSQuerySetCNAME]>
  (<[dns.TypeNS := DNSQuerySetNS]>
  (<[dns.TypeMX := DNSQuerySetMX]>
  (<[dns.TypeTXT := DNSQuerySetTXT]> ∅)))))).

(** ** Errors, HTTP responses and the trace of the process's exchanges *)

Inductive error : Type :=
| ExternalError (msg : string)
    (* an error value handed back by a library or by the next plugin *)
| ProblemPerformingRequest (cause : error)
    (* fmt.Errorf("problem performing request: %w", err) *)
| BadHTTPResponseCode (code : Z)
    (* fmt.Errorf("bad HTTP response code: %d", resp.StatusCode) *)
| CouldNotUnmarshal (cause : error)
    (* fmt.Errorf("could not unmarshal response: %w", err) *)
| RequestTypeNotImplemented.
    (* fmt.Errorf("request type not implemented") *)

Module http.

Definition StatusOK : Z := 200.

Record Response : Type := mkResponse { StatusCode : Z; Body : string }.

End http.

Inductive Event : Type :=
| EvGet (url token : string)              (* get(n.Client, url, token) *)
| EvQuery (dnsName : string) (family : Z) (* n.query(dnsName, family) *)
| EvQueryReverse (qname : string)         (* n.queryreverse(qname) *)
| EvNext (r : dns.Msg)                    (* plugin.NextOrFailure(.., w, r) *)
| EvWriteMsg (m : dns.Msg).               (* w.WriteMsg(m) *)

Definition Trace : Type := list Event.

(** The two terminal actions of the handler: handing the question to the
    next plugin, and writing a response to the client. *)
Definition isTerminal (e : Event) : bool :=
  match e with
  | EvNext _ | EvWriteMsg _ => true
  | _ => false
  end.

Definition isLookup (e : Event) : bool :=
  match e with
  | EvGet _ _ | EvQuery _ _ | EvQueryReverse _ => true
  | _ => false
  end.

(** A computation that extends the trace. *)
Definition M (X : Type) : Type := Trace -> X * Trace.

#[global] Instance M_ret : MRet M := fun X (x : X) tr => (x, tr).

#[global] Instance M_bind : MBind M :=
  fun X Y (k : X -> M Y) (m : M X) tr => let '(x, tr') := m tr in k x tr'.

(** An exchange with the outside: the answer may depend on everything
    exchanged so far, and the exchange is appended to the trace. *)
Definition exchange {X} (answer : Trace -> X) (e : Event) : M X :=
  fun tr => (answer tr, tr ++ [e]).

(** ** What the engine takes from outside its two files

    The repository's functions for the plain HTTP exchange and for the
    legacy backend ([get], [query], [queryreverse]) and the libraries
    ([net.ParseIP], the JSON decoder, CoreDNS's zone matching and name
    normalisation, the next plugin) are parameters of the engine, and so
    is what floating-point arithmetic decides. *)
Record Env : Type := mkEnv
  { (* net.ParseIP *)
    ParseIP : string -> net.IP;
    (* get(client, url, token): the response, or the transport error *)
    roundTrip : Trace -> string -> string -> error + http.Response;
    (* json.NewDecoder(body).Decode(&records): what is left in
       records.Records, and the error *)
    decodeRecords : string -> list DNSRecord.t * option error;
    (* json.NewDecoder(body).Decode(&zones) *)
    decodeZones : string -> list DNSZone.t * option error;
    (* n.query(dnsName, family) and n.queryreverse(qname) *)
    legacyQuery : Trace -> string -> Z -> list net.IP * option error;
    legacyQueryReverse : Trace -> string -> list string * option error;
    (* what plugin.NextOrFailure returns *)
    nextPlugin : Trace -> dns.Msg -> Z * option error;
    (* plugin.Zones(zones).Matches(qname): the matching zone, or "" *)
    Matches : list string -> string -> string;
    (* strings.ToLower(dns.Name(name).String()) *)
    lowerName : string -> string;
    (* uint32(d.Seconds()) for a duration d that is not a whole number
       of seconds between 0 and 2^32 - 1: the value that float64
       rounding and, out of range, the platform's conversion give *)
    uint32Seconds : Z -> Z }.

Module fall.

Record F : Type := mkF { Zones : list string }.

End fall.

Module time.

(** [time.Duration]: nanoseconds. *)
Definition Second : Z := 1000000000.

End time.

Record Netbox : Type := mkNetbox
  { Url : string;
    Token : string;
    TTL : Z;                       (* time.Duration *)
    Fall : fall.F;
    Zones : list string;
    UsePlugin : bool }.

(* constants to match IP address family used by NetBox *)
Definition familyIP4 : Z := 4.
Definition familyIP6 : Z := 6.

Module request.

(** [request.Request], as far as the handler reads it. *)
Record Request : Type := mkRequest { Req : dns.Msg }.

End request.

(** ** The engine *)

Section Engine.

Context (E : Env).

(** [state.Name()] and [state.QType()] of CoreDNS's request package. *)
Definition Name (state : request.Request) : string :=
  match dns.Questions (request.Req state) with
  | [] => "."
  | q :: _ => lowerName E (dns.Qname q)
  end.

Definition QType (state : request.Request) : Z :=
  match dns.Questions (request.Req state) with
  | [] => 0
  | q :: _ => dns.Qtype q
  end.

(** [f.Through(qname)] of CoreDNS's fall package. *)
Definition Through (f : fall.F) (qname : string) : bool :=
  negb (String.eqb (Matches E (fall.Zones f) qname) "").

(** [uint32(n.TTL.Seconds())].  [Seconds] is the float
    [float64(sec) + float64(nsec)/1e9] with [sec := d / Second] and
    [nsec := d % Second].  For a whole number of seconds the sum is
    [float64(sec)], which is exact, and the conversion gives [sec] when
    [0 <= sec < 2^32].  For any other duration the result depends on the
    rounding of the float sum and, out of range, on the platform; it is
    the environment's. *)
Definition ttlSeconds (d : Z) : Z :=
  if (Z.rem d time.Second =? 0)
     && (0 <=? d ÷ time.Second) && (d ÷ time.Second <? 2 ^ 32)
  then d ÷ time.Second
  else uint32Seconds E d.

(** *** querydns.go: the two lookups *)

Definition get (url token : string) : M (error + http.Response) :=
  exchange (fun tr => roundTrip E tr url token) (EvGet url token).

Definition recordsURL (n : Netbox) (zone fqdn : string) (querySet : DNSQuerySet)
  : string :=
  Url n +:+ "/api/plugins/netbox-dns/records/?zone="
        +:+ gostrings.TrimRight zone "." +:+ "&fqdn=" +:+ fqdn
        +:+ "&active=true&" +:+ querySet.

Definition zonesURL (n : Netbox) (zone : string) : string :=
  Url n +:+ "/api/plugins/netbox-dns/zones/?name="
        +:+ gostrings.TrimSuffix zone "." +:+ "&active=true".

(** [func (n *Netbox) queryRecord(zone, fqdn, querySet)] *)
Definition queryRecord (n : Netbox) (zone fqdn : string) (querySet : DNSQuerySet)
  : M (list DNSRecord.t * option error) :=
  let requrl := recordsURL n zone fqdn querySet in
  (* do http request against NetBox instance *)
  res ← get requrl (Token n);
  match res with
  | inl err => mret ([], Some (ProblemPerformingRequest err))
  | inr resp =>
      (* status code must be http.StatusOK *)
      if negb (http.StatusCode resp =? http.StatusOK) then
        mret ([], Some (BadHTTPResponseCode (http.StatusCode resp)))
      else
        (* read and parse response body *)
        match decodeRecords E (http.Body resp) with
        | (records, Some err) => mret (records, Some (CouldNotUnmarshal err))
        | (records, None) => mret (records, None)
        end
  end.

(** [func (n *Netbox) queryZone(zone)] *)
Definition queryZone (n : Netbox) (zone : string)
  : M (list DNSZone.t * option error) :=
  let requrl := zonesURL n zone in
  res ← get requrl (Token n);
  match res with
  | inl err => mret ([], Some (ProblemPerformingRequest err))
  | inr resp =>
      if negb (http.StatusCode resp =? http.StatusOK) then
        mret ([], Some (BadHTTPResponseCode (http.StatusCode resp)))
      else
        match decodeZones E (http.Body resp) with
        | (zones, Some err) => mret (zones, Some (CouldNotUnmarshal err))
        | (zones, None) => mret (zones, None)
        end
  end.

(** *** The handler *)

(** a takes a slice of net.IPs and returns a slice of A RRs. *)
Definition a (zone : string) (ttl : Z) (ips : list net.IP) : list dns.RR :=
  map (fun ip => dns.A {| dns.Name := zone; dns.Rrtype := dns.TypeA;
                          dns.Class := dns.ClassINET; dns.Ttl := ttl |} ip) ips.

(** aaaa takes a slice of net.IPs and returns a slice of AAAA RRs. *)
Definition aaaa (zone : string) (ttl : Z) (ips : list net.IP) : list dns.RR :=
  map (fun ip => dns.AAAA {| dns.Name := zone; dns.Rrtype := dns.TypeAAAA;
                             dns.Class := dns.ClassINET; dns.Ttl := ttl |} ip) ips.

(** ptr takes a slice of strings and returns a slice of PTR RRs. *)
Definition ptr (zone : string) (ttl : Z) (domains : list string) : list dns.RR :=
  map (fun domain => dns.PTR {| dns.Name := zone; dns.Rrtype := dns.TypePTR;
                                dns.Class := dns.ClassINET; dns.Ttl := ttl |} domain)
      domains.

Definition query (dnsName : string) (family : Z) : M (list net.IP * option error) :=
  exchange (fun tr => legacyQuery E tr dnsName family) (EvQuery dnsName family).

Definition queryreverse (qname : string) : M (list string * option error) :=
  exchange (fun tr => legacyQueryReverse E tr qname) (EvQueryReverse qname).

(** [func (n *Netbox) queryNative(state)] *)
Definition queryNative (n : Netbox) (state : request.Request)
  : M (list dns.RR * option error) :=
  let qname := Name state in
  (* check record type here and bail out if not A, AAAA or PTR *)
  if QType state =? dns.TypeA then
    '(ips, err) ← query (gostrings.TrimRight qname ".") familyIP4;
    mret (a qname (ttlSeconds (TTL n)) ips, err)
  else if QType state =? dns.TypeAAAA then
    '(ips, err) ← query (gostrings.TrimRight qname ".") familyIP6;
    mret (aaaa qname (ttlSeconds (TTL n)) ips, err)
  else if QType state =? dns.TypePTR then
    '(domains, err) ← queryreverse qname;
    mret (ptr qname (ttlSeconds (TTL n)) domains, err)
  else
    mret ([], Some RequestTypeNotImplemented).

(** The loop [for _, record := range records] of [queryDNSPlugin].
    Go evaluates the range expression once, before the loop: the loop
    runs over the slice as it was then ([snapshot]), while the body
    reassigns the variable [records]. *)
Fixpoint rangeRecords (n : Netbox) (zone : string) (qtype : Z)
    (snapshot records : list DNSRecord.t) (answers : list dns.RR)
  : M (list DNSRecord.t * list dns.RR) :=
  match snapshot with
  | [] => mret (records, answers)
  | record :: rest =>
      (* try to resolve CNAME record if question was A or AAAA *)
      records' ←
        (if String.eqb (DNSRecord.Type_ record) DNSRecordTypeCNAME
            && ((qtype =? dns.TypeA) || (qtype =? dns.TypeAAAA))
         then
           '(resolvedRecs, err) ←
             queryRecord n zone (DNSRecord.AbsoluteValue record)
                         (default "" (DNSQueryReverseMap !! qtype));
           mret (match err with
                 | None => records ++ resolvedRecs
                 | Some _ => records
                 end)
         else mret records);
      rangeRecords n zone qtype rest records'
                   (answers ++ [DNSRecord.RR (ParseIP E) record])
  end.

(** The loop [for _, zone := range zones]. *)
Definition rangeZones (zones : list DNSZone.t) (answers : list dns.RR)
  : list dns.RR :=
  fold_left (fun answers zone => answers ++ [DNSZone.RR zone]) zones answers.

(** [func (n *Netbox) queryDNSPlugin(zone, state)] *)
Definition queryDNSPlugin (n : Netbox) (zone : string) (state : request.Request)
  : M (list dns.RR * option error) :=
  let qname := Name state in
  let qtype := QType state in
  if qtype =? dns.TypeSOA then
    '(zones, err) ← queryZone n zone;
    '(_, answers) ← rangeRecords n zone qtype [] [] [];
    mret (rangeZones zones answers, err)
  else
    match DNSQueryReverseMap !! qtype with
    | None => mret ([], Some RequestTypeNotImplemented)
    | Some querySet =>
        '(records, err) ← queryRecord n zone qname querySet;
        '(_, answers) ← rangeRecords n zone qtype records records [];
        mret (rangeZones [] answers, err)
    end.

Definition NextOrFailure (r : dns.Msg) : M (Z * option error) :=
  exchange (fun tr => nextPlugin E tr r) (EvNext r).

Definition WriteMsg (m : dns.Msg) : M unit :=
  exchange (fun _ => tt) (EvWriteMsg m).

(** dnserror writes a DNS error response back to the client. *)
Definition dnserror (rcode : Z) (state : request.Request) (err : option error)
  : M (Z * option error) :=
  let m := dns.SetRcode dns.newMsg (request.Req state) rcode in
  let m := dns.setAuthoritative m true in
  (* send response *)
  _ ← WriteMsg m;
  (* return success as the rcode to signal we have written to the client. *)
  mret (dns.RcodeSuccess, err).

(** ServeDNS implements the plugin.Handler interface.  (The request
    counter exported for metrics is not part of the model.) *)
Definition ServeDNS (n : Netbox) (r : dns.Msg) : M (Z * option error) :=
  let state := request.mkRequest r in
  (* only handle zones we are configured to respond for *)
  let zone := Matches E (Zones n) (Name state) in
  if String.eqb zone "" then NextOrFailure r
  else
    '(answers, err) ←
      (if UsePlugin n then queryDNSPlugin n zone state
       else queryNative n state);
    match err with
    | Some e =>
        (* always fallthrough if configured *)
        if Through (Fall n) (Name state) then NextOrFailure r
        (* otherwise return SERVFAIL here without fallthrough *)
        else dnserror dns.RcodeServerFailure state (Some e)
    | None =>
        if (Z.of_nat (length answers) =? 0) then
          if Through (Fall n) (Name state) then NextOrFailure r
          else dnserror dns.RcodeNameError state None
        else
          (* create DNS response *)
          let m := dns.SetReply dns.newMsg r in
          let m := dns.setAuthoritative m true in
          let m := dns.setAnswer m answers in
          (* send response back to client *)
          _ ← WriteMsg m;
          (* signal response sent back to client *)
          mret (dns.RcodeSuccess, None)
    end.

End Engine.

(** Whether a record makes the loop of [queryDNSPlugin] look its target up. *)
Definition resolves (qtype : Z) (record : DNSRecord.t) : bool :=
  String.eqb (DNSRecord.Type_ record) DNSRecordTypeCNAME
  && ((qtype =? dns.TypeA) || (qtype =? dns.TypeAAAA)).

(** The response the handler writes, field by field: a reply to [r] with
    the authoritative bit set. *)
Definition authoritativeReply (r : dns.Msg) (rcode : Z) (answers : list dns.RR)
  : dns.Msg :=
  {| dns.Id := dns.Id r; dns.Response := true; dns.Authoritative := true;
     dns.Rcode := rcode; dns.Questions := take 1 (dns.Questions r);
     dns.Answer := answers |}.

(** ** Fixtures: a concrete environment in the style of the repository's tests *)

Module Fixture.

(** Dotted-decimal IPv4 literals, the part of [net.ParseIP] the
    fixtures need: four decimal fields of at most three digits, no
    leading zero, each at most 255; the result is the 16-byte form.
    Anything else is [nil]. *)
Definition octet (s : string) : option Byte.byte :=
  match s with
  | String "0" (String _ _) => None
  | _ =>
      if (3 <? Z.of_nat (String.length s)) then None
      else match strconv.ParseUint10 s with
           | Some v => Byte.of_N (Z.to_N v)
           | None => None
           end
  end.

Definition v4InV6Prefix : list Byte.byte :=
  [x00; x00; x00; x00; x00; x00; x00; x00; x00; x00; xff; xff]%byte.

Definition ParseIPv4 (s : string) : net.IP :=
  match gostrings.Split s "." with
  | [f1; f2; f3; f4] =>
      match octet f1, octet f2, octet f3, octet f4 with
      | Some b1, Some b2, Some b3, Some b4 => v4InV6Prefix ++ [b1; b2; b3; b4]
      | _, _, _, _ => net.nilIP
      end
  | _ => net.nilIP
  end.

Fixpoint hasSuffix (s suffix : string) : bool :=
  String.eqb s suffix
  || match s with
     | EmptyString => false
     | String _ rest => hasSuffix rest suffix
     end.

(** Zone matching on names that are already lower-case and fully
    qualified: the longest configured zone that the name lies in. *)
Definition inZone (zone qname : string) : bool :=
  String.eqb zone "." || String.eqb qname zone || hasSuffix qname ("." +:+ zone).

Definition zoneMatches (zones : list string) (qname : string) : string :=
  fold_left
    (fun zone zname =>
       if inZone zname qname && (String.length zone <? String.length zname)%nat
       then zname else zone)
    zones "".

(** Mocked HTTP exchanges: a request whose URL is in the table gets the
    response registered for it, any other fails at the transport. *)
Fixpoint reply {X} (table : list (string * X)) (key : string) : option X :=
  match table with
  | [] => None
  | (k, x) :: rest => if String.eqb k key then Some x else reply rest key
  end.

Definition mockRoundTrip (mocks : list (string * http.Response))
  : Trace -> string -> string -> error + http.Response :=
  fun _ url _ =>
    match reply mocks url with
    | Some resp => inr resp
    | None => inl (ExternalError "cannot match any request")
    end.

Definition decode {X} (bodies : list (string * list X)) (body : string)
  : list X * option error :=
  match reply bodies body with
  | Some xs => (xs, None)
  | None => ([], Some (ExternalError "invalid character"))
  end.

Definition env (mocks : list (string * http.Response))
    (recordBodies : list (string * list DNSRecord.t))
    (zoneBodies : list (string * list DNSZone.t))
    (addresses : list (string * list net.IP)) : Env :=
  {| ParseIP := ParseIPv4;
     roundTrip := mockRoundTrip mocks;
     decodeRecords := decode recordBodies;
     decodeZones := decode zoneBodies;
     legacyQuery := fun _ dnsName _ =>
       match reply addresses dnsName with
       | Some ips => (ips, None)
       | None => ([], None)
       end;
     legacyQueryReverse := fun _ _ => ([], None);
     nextPlugin := fun _ _ => (dns.RcodeSuccess, None);
     Matches := zoneMatches;
     lowerName := fun name => name;
     uint32Seconds := fun d => (d ÷ time.Second) mod 2 ^ 32 |}.

Definition netbox (usePlugin : bool) (fallZones : list string) : Netbox :=
  {| Url := "https://example.org"; Token := "mytoken";
     TTL := 1800 * time.Second; Fall := fall.mkF fallZones;
     Zones := ["example.org."]; UsePlugin := usePlugin |}.

Definition question (name : string) (qtype : Z) : dns.Msg :=
  {| dns.Id := 7; dns.Response := false; dns.Authoritative := false;
     dns.Rcode := 0;
     dns.Questions := [dns.mkQuestion name qtype dns.ClassINET];
     dns.Answer := [] |}.

Definition cnameRecord : DNSRecord.t :=
  DNSRecord.mk "CNAME" 8600 "mail1" "mail1.example.org." "test.example.org.".

Definition aRecord : DNSRecord.t :=
  DNSRecord.mk "A" 8600 "192.168.0.1" "192.168.0.1" "mail1.example.org.".

(** An address record whose text is no address, and two mail records
    whose preference is no 16-bit unsigned number. *)
Definition badAddressRecord : DNSRecord.t :=
  DNSRecord.mk "A" 8600 "not-an-ip" "not-an-ip" "test.example.org.".

Definition negativeMX : DNSRecord.t :=
  DNSRecord.mk "MX" 8600 "-5 mail1" "-5 mail1.example.org." "example.org.".

Definition oversizedMX : DNSRecord.t :=
  DNSRecord.mk "MX" 8600 "70000 mail1" "70000 mail1.example.org." "example.org.".

Definition recordBodies : list (string * list DNSRecord.t) :=
  [("cname", [cnameRecord]); ("a", [aRecord]); ("empty", []);
   ("bad-address", [badAddressRecord])].

Definition testURL : string :=
  "https://example.org/api/plugins/netbox-dns/records/?zone=example.org&fqdn=test.example.org.&active=true&type=A&type=CNAME".

Definition mail1URL : string :=
  "https://example.org/api/plugins/netbox-dns/records/?zone=example.org&fqdn=mail1.example.org.&active=true&type=A&type=CNAME".

(** The alias and its target are both served. *)
Definition aliasResolved : Env :=
  env [(testURL, http.mkResponse 200 "cname");
       (mail1URL, http.mkResponse 200 "a")] recordBodies [] [].

(** The alias is served; the lookup of its target fails. *)
Definition aliasUnresolved : Env :=
  env [(testURL, http.mkResponse 200 "cname");
       (mail1URL, http.mkResponse 500 "")] recordBodies [] [].

(** No mock at all: every lookup fails at the transport. *)
Definition backendDown : Env := env [] recordBodies [] [].

(** The name exists in no record. *)
Definition noRecord : Env :=
  env [(testURL, http.mkResponse 200 "empty")] recordBodies [] [].

(** The name has one address record, whose text is no address. *)
Definition unparsableAddress : Env :=
  env [(testURL, http.mkResponse 200 "bad-address")] recordBodies [] [].

(** The legacy backend knows one address for the name. *)
Definition legacy : Env :=
  env [] [] [] [("test.example.org", [ParseIPv4 "10.0.0.2"])].

End Fixture.

(** ** The capability probe *)

Module statusApps.

Record t : Type := mk { DNSPlugin : string }.

End statusApps.

Module status.

Record t : Type := mk { Apps : statusApps.t; Version : string }.

End status.

(** The assignment [n.UsePlugin = b]. *)
Definition setUsePlugin (n : Netbox) (b : bool) : Netbox :=
  {| Url := Url n; Token := Token n; TTL := TTL n; Fall := Fall n;
     Zones := Zones n; UsePlugin := b |}.

Section Probe.

Context (E : Env).

(** [json.NewDecoder(resp.Body).Decode(&s)]: what is left in [s], and
    the error. *)
Variable decodeStatus : string -> status.t * option error.

(** Ready tests the connection to netbox and gathers version and
    capabilities.  The method writes [n.UsePlugin]; the model returns
    the configuration as the call leaves it. *)
Definition Ready (n : Netbox) : M (bool * Netbox) :=
  res ← get E (Url n +:+ "/api/status") (Token n);
  match res with
  | inl _ => mret (false, n)
  | inr resp =>
      if negb (http.StatusCode resp =? http.StatusOK) then mret (false, n)
      else
        match decodeStatus (http.Body resp) with
        | (_, Some _) => mret (false, n)
        | (s, None) =>
            mret (true,
                  setUsePlugin n
                    (negb (String.eqb (statusApps.DNSPlugin (status.Apps s)) "")))
        end
  end.

End Probe.

(** ** Vocabulary of the further properties *)

(** Whether the byte occurs in the string. *)
Fixpoint occurs (c : ascii) (s : string) : bool :=
  match s with
  | EmptyString => false
  | String c' rest => Ascii.eqb c' c || occurs c rest
  end.

(** The type code that miekg/dns registers for each record struct. *)
Definition rrtypeOf (rr : dns.RR) : Z :=
  match rr with
  | dns.A _ _ => dns.TypeA
  | dns.AAAA _ _ => dns.TypeAAAA
  | dns.CNAME _ _ => dns.TypeCNAME
  | dns.PTR _ _ => dns.TypePTR
  | dns.NS _ _ => dns.TypeNS
  | dns.MX _ _ _ => dns.TypeMX
  | dns.TXT _ _ => dns.TypeTXT
  | dns.SOA _ _ _ _ _ _ _ _ => dns.TypeSOA
  | dns.NULL _ _ => dns.TypeNULL
  end.

(** The record types that have a case in the switch of [DNSRecord.RR]. *)
Definition convertedRecordTypes : list string :=
  [DNSRecordTypeA; DNSRecordTypeAAAA; DNSRecordTypeCNAME; DNSRecordTypePTR;
   DNSRecordTypeNS; DNSRecordTypeMX; DNSRecordTypeTXT].

(** The question types each dispatcher has a branch for. *)
Definition richQuestionTypes : list Z :=
  [dns.TypeSOA; dns.TypeA; dns.TypeAAAA; dns.TypePTR; dns.TypeCNAME;
   dns.TypeNS; dns.TypeMX; dns.TypeTXT].

Definition legacyQuestionTypes : list Z :=
  [dns.TypeA; dns.TypeAAAA; dns.TypePTR].

Definition isGet (e : Event) : bool :=
  match e with EvGet _ _ => true | _ => false end.

Definition isLegacyQuery (e : Event) : bool :=
  match e with EvQuery _ _ | EvQueryReverse _ => true | _ => false end.

Module ProbeFixture.

Definition decodeStatus (body : string) : status.t * option error :=
  if String.eqb body "with-plugin" then
    (status.mk (statusApps.mk "1.2.6") "4.2.5-Docker-3.2.0", None)
  else if String.eqb body "without-plugin" then
    (status.mk (statusApps.mk "") "4.2.5-Docker-3.2.0", None)
  else (status.mk (statusApps.mk "") "", Some (ExternalError "invalid character")).

Definition statusURL : string := "https://example.org/api/status".

(** The status endpoint answers 200 and reports the DNS plugin. *)
Definition ready : Env :=
  Fixture.env [(statusURL, http.mkResponse 200 "with-plugin")] [] [] [].

(** The status endpoint refuses the token. *)
Definition forbidden : Env :=
  Fixture.env [(statusURL, http.mkResponse 403 "")] [] [] [].

End ProbeFixture.

Module ZoneFixture.

Definition exampleZone : DNSZone.t :=
  DNSZone.mk "example.org" (DNSZone.MName.mk "ns1.example.org")
             "admin.example.org" 1742857987 43200 7200 2419200 3600 86400.

Definition zoneURL : string :=
  "https://example.org/api/plugins/netbox-dns/zones/?name=example.org&active=true".

(** The zone endpoint serves the zone of the configuration. *)
Definition zoneServed : Env :=
  Fixture.env [(zoneURL, http.mkResponse 200 "zone")] []
              [("zone", [exampleZone])] [].

End ZoneFixture.

(** ** The library models on concrete inputs *)

Example Split_examples :
  gostrings.Split "10 mail1.example.org." " " = ["10"; "mail1.example.org."]
  /\ gostrings.Split "" " " = [""]
  /\ gostrings.Split "mail1.example.org." " " = ["mail1.example.org."]
  /\ gostrings.Split "10  mail1" " " = ["10"; ""; "mail1"]
  /\ gostrings.Split "10 mail1 " " " = ["10"; "mail1"; ""].
Proof. repeat split; reflexivity. Qed.

Example Trim_examples :
  gostrings.TrimRight "example.org." "." = "example.org"
  /\ gostrings.TrimRight "example.org.." "." = "example.org"
  /\ gostrings.TrimRight "." "." = ""
  /\ gostrings.TrimSuffix "example.org." "." = "example.org"
  /\ gostrings.TrimSuffix "example.org.." "." = "example.org."
  /\ gostrings.TrimSuffix "example.org" "." = "example.org".
Proof. repeat split; reflexivity. Qed.

Example ParseInt_examples :
  strconv.ParseInt "10" 32 = Some 10
  /\ strconv.ParseInt "+10" 32 = Some 10
  /\ strconv.ParseInt "-5" 32 = Some (-5)
  /\ strconv.ParseInt "007" 32 = Some 7
  /\ strconv.ParseInt "" 32 = None
  /\ strconv.ParseInt "-" 32 = None
  /\ strconv.ParseInt "1_0" 32 = None
  /\ strconv.ParseInt "ten" 32 = None
  /\ strconv.ParseInt "2147483647" 32 = Some 2147483647
  /\ strconv.ParseInt "2147483648" 32 = None
  /\ strconv.ParseInt "-2147483648" 32 = Some (-2147483648)
  /\ strconv.ParseInt "-2147483649" 32 = None.
Proof. repeat split; reflexivity. Qed.

(** The cases of [TestQueryRecord] that do not need an IPv6 parser. *)
Example TestQueryRecord_conversions :
  DNSRecord.RR Fixture.ParseIPv4
    (DNSRecord.mk "A" 0 "192.168.0.1" "192.168.0.1" "mail1.example.org.")
  = dns.A (dns.mkHeader "mail1.example.org." 1 1 0) (Fixture.ParseIPv4 "192.168.0.1")
  /\ DNSRecord.RR Fixture.ParseIPv4
       (DNSRecord.mk "CNAME" 8600 "mail1" "mail1.example.org." "test.example.org.")
     = dns.CNAME (dns.mkHeader "test.example.org." 5 1 8600) "mail1.example.org."
  /\ DNSRecord.RR Fixture.ParseIPv4
       (DNSRecord.mk "MX" 8600 "10 mail1" "10 mail1.example.org." "example.org.")
     = dns.MX (dns.mkHeader "example.org." 15 1 8600) 10 "mail1.example.org."
  /\ DNSRecord.RR Fixture.ParseIPv4
       (DNSRecord.mk "PTR" 8600 "mail1.example.org." "mail1.example.org."
                     "1.0.168.192.in-addr.arpa.")
     = dns.PTR (dns.mkHeader "1.0.168.192.in-addr.arpa." 12 1 8600) "mail1.example.org."
  /\ DNSRecord.RR Fixture.ParseIPv4
       (DNSRecord.mk "TXT" 8600 "TEST ENTRY" "TEST ENTRY" "example.org.")
     = dns.TXT (dns.mkHeader "example.org." 16 1 8600) ["TEST ENTRY"]
  /\ DNSRecord.RR Fixture.ParseIPv4
       (DNSRecord.mk "NS" 8600 "ns1.example.org." "ns1.example.org." "example.org.")
     = dns.NS (dns.mkHeader "example.org." 2 1 8600) "ns1.example.org.".
Proof. repeat split; reflexivity. Qed.

(** The case of [TestQueryZone]. *)
Example TestQueryZone_conversion :
  DNSZone.RR (DNSZone.mk "example.org" (DNSZone.MName.mk "ns1.example.org")
                         "admin.example.org" 1742857987 43200 7200 2419200 3600 86400)
  = dns.SOA (dns.mkHeader "example.org." 6 1 86400)
            "ns1.example.org." "admin.example.org."
            1742857987 43200 7200 2419200 3600.
Proof. reflexivity. Qed.

(** The supported record types are the keys of [DNSRecordReverseMap]. *)
Lemma supported_iff_reverse_map (t : string) :
  t ∈ supportedRecordTypes <-> is_Some (DNSRecordReverseMap !! t).
Proof.
  split.
  - intros Hin. unfold supportedRecordTypes in Hin.
    repeat (apply elem_of_cons in Hin as [-> | Hin]; [vm_compute; eauto|]).
    apply elem_of_nil in Hin. contradiction.
  - unfold DNSRecordReverseMap, supportedRecordTypes. intros [v Hv].
    repeat (rewrite lookup_insert in Hv;
            destruct (decide _) as [<- | _] in Hv; [set_solver|]).
    rewrite lookup_empty in Hv. discriminate.
Qed.

(** ** Properties of the record model *)

Section RecordModel.

Variable P : string -> net.IP.

Lemma RR_A (r : DNSRecord.t) :
  DNSRecord.Type_ r = DNSRecordTypeA ->
  DNSRecord.RR P r =
    dns.A (dns.mkHeader (DNSRecord.FQDN r) dns.TypeA dns.ClassINET (DNSRecord.TTL r))
          (P (DNSRecord.AbsoluteValue r)).
Proof.
  intros HT. unfold DNSRecord.RR. rewrite HT. reflexivity.
Qed.

Lemma RR_AAAA (r : DNSRecord.t) :
  DNSRecord.Type_ r = DNSRecordTypeAAAA ->
  DNSRecord.RR P r =
    dns.AAAA (dns.mkHeader (DNSRecord.FQDN r) dns.TypeAAAA dns.ClassINET (DNSRecord.TTL r))
             (P (DNSRecord.AbsoluteValue r)).
Proof.
  intros HT. unfold DNSRecord.RR. rewrite HT. reflexivity.
Qed.

Lemma RR_CNAME (r : DNSRecord.t) :
  DNSRecord.Type_ r = DNSRecordTypeCNAME ->
  DNSRecord.RR P r =
    dns.CNAME (dns.mkHeader (DNSRecord.FQDN r) dns.TypeCNAME dns.ClassINET (DNSRecord.TTL r))
              (DNSRecord.AbsoluteValue r).
Proof.
  intros HT. unfold DNSRecord.RR. rewrite HT. reflexivity.
Qed.

(** The shape of the MX conversion: a NULL record unless the text has
    exactly one space and [ParseInt] accepts what precedes it. *)
Lemma RR_MX (r : DNSRecord.t) :
  DNSRecord.Type_ r = DNSRecordTypeMX ->
  DNSRecord.RR P r =
    match gostrings.Split (DNSRecord.AbsoluteValue r) " " with
    | [pref; host] =>
        match strconv.ParseInt pref 32 with
        | Some preference =>
            dns.MX (dns.mkHeader (DNSRecord.FQDN r) dns.TypeMX dns.ClassINET
                                 (DNSRecord.TTL r))
                   (preference mod 65536) host
        | None => dns.NULL0
        end
    | _ => dns.NULL0
    end.
Proof.
  intros HT. unfold DNSRecord.RR. rewrite HT. reflexivity.
Qed.

(** Every branch of the conversion either gives up with [&dns.NULL{}]
    or builds its header from the record. *)
Lemma RR_header (r : DNSRecord.t) :
  DNSRecord.RR P r = dns.NULL0 \/
  dns.Header (DNSRecord.RR P r) =
    dns.mkHeader (DNSRecord.FQDN r)
                 (default 0 (DNSRecordReverseMap !! DNSRecord.Type_ r))
                 dns.ClassINET (DNSRecord.TTL r).
Proof.
  unfold DNSRecord.RR.
  repeat match goal with
         | |- context [if ?b then _ else _] => destruct b; [right; reflexivity|]
         end.
  destruct (String.eqb _ DNSRecordTypeMX).
  - destruct (gostrings.Split _ _) as [|pref [|host [|? ?]]]; auto.
    destruct (strconv.ParseInt pref 32); auto.
  - destruct (String.eqb _ DNSRecordTypeTXT); auto.
Qed.

End RecordModel.

(** ** Properties of the lookups and of the handler *)

Section EngineProperties.

Context (E : Env).

Local Ltac run := unfold mbind, M_bind, mret, M_ret, exchange in *.

(** One call of [queryRecord] is one GET, and its result is decided by
    that exchange alone. *)
Lemma queryRecord_run n zone fqdn querySet tr :
  queryRecord E n zone fqdn querySet tr =
    (match roundTrip E tr (recordsURL n zone fqdn querySet) (Token n) with
     | inl err => ([], Some (ProblemPerformingRequest err))
     | inr resp =>
         if http.StatusCode resp =? http.StatusOK then
           match decodeRecords E (http.Body resp) with
           | (records, Some err) => (records, Some (CouldNotUnmarshal err))
           | (records, None) => (records, None)
           end
         else ([], Some (BadHTTPResponseCode (http.StatusCode resp)))
     end,
     tr ++ [EvGet (recordsURL n zone fqdn querySet) (Token n)]).
Proof.
  unfold queryRecord, get. run.
  destruct (roundTrip E tr _ _) as [err|resp]; [reflexivity|].
  destruct (http.StatusCode resp =? http.StatusOK); simpl; [|reflexivity].
  destruct (decodeRecords E (http.Body resp)) as [records [err|]]; reflexivity.
Qed.

Lemma queryZone_run n zone tr :
  queryZone E n zone tr =
    (match roundTrip E tr (zonesURL n zone) (Token n) with
     | inl err => ([], Some (ProblemPerformingRequest err))
     | inr resp =>
         if http.StatusCode resp =? http.StatusOK then
           match decodeZones E (http.Body resp) with
           | (zones, Some err) => (zones, Some (CouldNotUnmarshal err))
           | (zones, None) => (zones, None)
           end
         else ([], Some (BadHTTPResponseCode (http.StatusCode resp)))
     end,
     tr ++ [EvGet (zonesURL n zone) (Token n)]).
Proof.
  unfold queryZone, get. run.
  destruct (roundTrip E tr _ _) as [err|resp]; [reflexivity|].
  destruct (http.StatusCode resp =? http.StatusOK); simpl; [|reflexivity].
  destruct (decodeZones E (http.Body resp)) as [zones [err|]]; reflexivity.
Qed.

(** The loop converts the records it ranges over, one answer each, in
    order, whatever the alias lookups return. *)
Lemma rangeRecords_answers n zone qtype snapshot :
  forall records answers tr,
    snd (fst (rangeRecords E n zone qtype snapshot records answers tr)) =
      answers ++ map (DNSRecord.RR (ParseIP E)) snapshot.
Proof.
  induction snapshot as [|record rest IH]; intros records answers tr.
  - simpl. run. simpl. rewrite app_nil_r. reflexivity.
  - simpl. run.
    destruct (_ && _).
    + destruct (queryRecord E n zone _ _ tr) as [[resolvedRecs err] tr'].
      rewrite IH, <- app_assoc. reflexivity.
    + rewrite IH, <- app_assoc. reflexivity.
Qed.

(** The loop makes one GET for each alias it ranges over, for the
    alias's absolute value and under the question's query set. *)
Lemma rangeRecords_trace n zone qtype snapshot :
  forall records answers tr,
    snd (rangeRecords E n zone qtype snapshot records answers tr) =
      tr ++ map (fun record =>
                   EvGet (recordsURL n zone (DNSRecord.AbsoluteValue record)
                                     (default "" (DNSQueryReverseMap !! qtype)))
                         (Token n))
                (List.filter (resolves qtype) snapshot).
Proof.
  induction snapshot as [|record rest IH]; intros records answers tr.
  - simpl. run. simpl. rewrite app_nil_r. reflexivity.
  - simpl. run. unfold resolves at 1.
    destruct (_ && _) eqn:Hres.
    + rewrite queryRecord_run.
      match goal with
      | |- context [match ?x with inl _ => _ | inr _ => _ end] => destruct x
      end.
      * rewrite IH. simpl. rewrite <- app_assoc. reflexivity.
      * match goal with
        | |- context [if ?b then _ else _] => destruct b
        end;
        [destruct (decodeRecords E _) as [rs [e|]]|];
        rewrite IH; simpl; rewrite <- app_assoc; reflexivity.
    + apply IH.
Qed.

Lemma rangeZones_answers zones :
  forall answers, rangeZones zones answers = answers ++ map DNSZone.RR zones.
Proof.
  unfold rangeZones.
  induction zones as [|zone rest IH]; intros answers; simpl.
  - rewrite app_nil_r. reflexivity.
  - rewrite IH, <- app_assoc. reflexivity.
Qed.

(** A question other than SOA whose type has a query set: one lookup
    for the name, then one for each alias among its records when the
    question is A or AAAA; the answers are the conversions of the
    records of the first lookup, and the error is the first lookup's. *)
Lemma queryDNSPlugin_records n zone state querySet tr :
  QType state <> dns.TypeSOA ->
  DNSQueryReverseMap !! QType state = Some querySet ->
  queryDNSPlugin E n zone state tr =
    let '((records, err), tr1) := queryRecord E n zone (Name E state) querySet tr in
    ((map (DNSRecord.RR (ParseIP E)) records, err),
     tr1 ++ map (fun record =>
                   EvGet (recordsURL n zone (DNSRecord.AbsoluteValue record) querySet)
                         (Token n))
                (List.filter (resolves (QType state)) records)).
Proof.
  intros Hsoa Hset. unfold queryDNSPlugin.
  destruct (QType state =? dns.TypeSOA) eqn:Hq; [apply Z.eqb_eq in Hq; contradiction|].
  rewrite Hset. run.
  destruct (queryRecord E n zone (Name E state) querySet tr) as [[records err] tr1].
  pose proof (rangeRecords_answers n zone (QType state) records records [] tr1) as Ha.
  pose proof (rangeRecords_trace n zone (QType state) records records [] tr1) as Ht.
  destruct (rangeRecords E n zone (QType state) records records [] tr1)
    as [[records' answers] tr2].
  simpl in Ha, Ht. subst answers tr2.
  rewrite rangeZones_answers, Hset. simpl. rewrite app_nil_r. reflexivity.
Qed.

(** An SOA question: one lookup of the zone, each zone converted. *)
Lemma queryDNSPlugin_zones n zone state tr :
  QType state = dns.TypeSOA ->
  queryDNSPlugin E n zone state tr =
    let '((zones, err), tr1) := queryZone E n zone tr in
    ((map DNSZone.RR zones, err), tr1).
Proof.
  intros Hsoa. unfold queryDNSPlugin. rewrite Hsoa. simpl. run.
  destruct (queryZone E n zone tr) as [[zones err] tr1]. simpl.
  rewrite rangeZones_answers. reflexivity.
Qed.

(** A question outside the query-set mapping fails before any lookup. *)
Lemma queryDNSPlugin_not_implemented n zone state tr :
  QType state <> dns.TypeSOA ->
  DNSQueryReverseMap !! QType state = None ->
  queryDNSPlugin E n zone state tr = (([], Some RequestTypeNotImplemented), tr).
Proof.
  intros Hsoa Hset. unfold queryDNSPlugin.
  destruct (QType state =? dns.TypeSOA) eqn:Hq; [apply Z.eqb_eq in Hq; contradiction|].
  rewrite Hset. reflexivity.
Qed.

Lemma queryNative_not_implemented n state tr :
  QType state <> dns.TypeA -> QType state <> dns.TypeAAAA ->
  QType state <> dns.TypePTR ->
  queryNative E n state tr = (([], Some RequestTypeNotImplemented), tr).
Proof.
  intros HA HAAAA HPTR. unfold queryNative.
  apply Z.eqb_neq in HA, HAAAA, HPTR. rewrite HA, HAAAA, HPTR. reflexivity.
Qed.

(** The lookups of either mode add lookups to the trace and nothing else. *)
Lemma queryDNSPlugin_lookups n zone state tr :
  exists lookups,
    snd (queryDNSPlugin E n zone state tr) = tr ++ lookups /\
    forallb isLookup lookups = true.
Proof.
  destruct (Z.eq_dec (QType state) dns.TypeSOA) as [Hsoa|Hsoa].
  - rewrite queryDNSPlugin_zones, queryZone_run by assumption.
    match goal with
    | |- context [let '(_, _) := ?x in _] => destruct x as [zones err]
    end.
    eexists. split; [reflexivity|reflexivity].
  - destruct (DNSQueryReverseMap !! QType state) as [querySet|] eqn:Hset.
    + rewrite (queryDNSPlugin_records _ _ _ querySet) by assumption.
      rewrite queryRecord_run.
      match goal with
      | |- context [let '(_, _) := ?x in _] => destruct x as [records err]
      end.
      simpl. rewrite <- app_assoc. eexists. split; [reflexivity|].
      simpl. induction (List.filter _ records); simpl; auto.
    + rewrite queryDNSPlugin_not_implemented by assumption.
      exists []. simpl. rewrite app_nil_r. auto.
Qed.

Lemma queryNative_lookups n state tr :
  exists lookups,
    snd (queryNative E n state tr) = tr ++ lookups /\
    forallb isLookup lookups = true.
Proof.
  unfold queryNative, query, queryreverse. run.
  repeat match goal with
         | |- context [if ?b then _ else _] => destruct b
         | |- context [let '(_, _) := ?x in _] => destruct x
         end;
    simpl; (eexists; split; [reflexivity|reflexivity])
           || (exists []; rewrite app_nil_r; auto).
Qed.

(** The legacy path stamps every record with the configured TTL. *)
Lemma queryNative_ttl n state tr :
  Forall (fun rr => dns.Ttl (dns.Header rr) = ttlSeconds E (TTL n))
         (fst (fst (queryNative E n state tr))).
Proof.
  unfold queryNative, query, queryreverse, a, aaaa, ptr. run.
  repeat match goal with
         | |- context [if ?b then _ else _] => destruct b
         | |- context [let '(_, _) := ?x in _] => destruct x
         end;
    simpl; try solve [constructor];
    match goal with
    | |- Forall _ (map _ ?l) => induction l; simpl; constructor; auto
    end.
Qed.

(** The rich path reads the URL and the token of the configuration and
    nothing else of it; in particular not the configured TTL. *)
Lemma queryRecord_config n n' zone fqdn querySet tr :
  Url n = Url n' -> Token n = Token n' ->
  queryRecord E n zone fqdn querySet tr = queryRecord E n' zone fqdn querySet tr.
Proof.
  intros HU HT. rewrite !queryRecord_run. unfold recordsURL.
  rewrite HU, HT. reflexivity.
Qed.

Lemma rangeRecords_config n n' zone qtype snapshot :
  Url n = Url n' -> Token n = Token n' ->
  forall records answers tr,
    rangeRecords E n zone qtype snapshot records answers tr =
    rangeRecords E n' zone qtype snapshot records answers tr.
Proof.
  intros HU HT.
  induction snapshot as [|record rest IH]; intros records answers tr.
  - reflexivity.
  - simpl. run. destruct (_ && _).
    + rewrite (queryRecord_config n n') by assumption.
      destruct (queryRecord E n' zone _ _ tr) as [[resolvedRecs err] tr'].
      apply IH.
    + apply IH.
Qed.

Lemma queryDNSPlugin_config n n' zone state tr :
  Url n = Url n' -> Token n = Token n' ->
  queryDNSPlugin E n zone state tr = queryDNSPlugin E n' zone state tr.
Proof.
  intros HU HT. unfold queryDNSPlugin. run.
  destruct (QType state =? dns.TypeSOA).
  - rewrite !queryZone_run. unfold zonesURL. rewrite HU, HT. reflexivity.
  - destruct (DNSQueryReverseMap !! QType state) as [querySet|]; [|reflexivity].
    rewrite (queryRecord_config n n') by assumption.
    destruct (queryRecord E n' zone _ _ tr) as [[records err] tr1].
    rewrite (rangeRecords_config n n') by assumption. reflexivity.
Qed.

End EngineProperties.

(** ** The engine against its specification *)

(** C1.  An A question whose first lookup returns a single CNAME record
    and whose alias lookup succeeds with one A record.  The handler makes
    both lookups, the second for the alias's absolute value under the
    question's query set, and the second returns the A record; yet the
    answer sequence is the CNAME record alone, not the CNAME followed by
    the A: the loop ranges over the records of the first lookup, and
    what it appends to [records] is never converted. *)
Theorem resolved_alias_target_missing_from_answers :
  let n := Fixture.netbox true [] in
  let state := request.mkRequest (Fixture.question "test.example.org." dns.TypeA) in
  queryDNSPlugin Fixture.aliasResolved n "example.org." state [] =
    (([dns.CNAME (dns.mkHeader "test.example.org." dns.TypeCNAME dns.ClassINET 8600)
                 "mail1.example.org."], None),
     [EvGet Fixture.testURL "mytoken"; EvGet Fixture.mail1URL "mytoken"])
  /\ queryRecord Fixture.aliasResolved n "example.org." "mail1.example.org."
                 DNSQuerySetA [EvGet Fixture.testURL "mytoken"] =
       (([Fixture.aRecord], None),
        [EvGet Fixture.testURL "mytoken"; EvGet Fixture.mail1URL "mytoken"]).
Proof. split; reflexivity. Qed.

(** C3.  The MX conversion accepts a preference that is not a
    non-negative 16-bit number: the text is parsed as a signed 32-bit
    integer and then cut to 16 bits, so [-5] is emitted as preference
    65531 and [70000] as 4464, where the conversion should fail. *)
Theorem MX_preference_signed_and_truncated :
  DNSRecord.RR Fixture.ParseIPv4 Fixture.negativeMX =
    dns.MX (dns.mkHeader "example.org." dns.TypeMX dns.ClassINET 8600)
           65531 "mail1.example.org."
  /\ DNSRecord.RR Fixture.ParseIPv4 Fixture.oversizedMX =
       dns.MX (dns.mkHeader "example.org." dns.TypeMX dns.ClassINET 8600)
              4464 "mail1.example.org.".
Proof. split; reflexivity. Qed.

(** C5.  An A record whose absolute value is not an IP address literal is
    not converted to a NULL record: the conversion builds an A record
    with the record's header and a nil address, and the handler answers
    with it. *)
Theorem unparsable_address_yields_typed_record :
  let n := Fixture.netbox true [] in
  let r := Fixture.question "test.example.org." dns.TypeA in
  let rr := dns.A (dns.mkHeader "test.example.org." dns.TypeA dns.ClassINET 8600)
                  net.nilIP in
  Fixture.ParseIPv4 (DNSRecord.AbsoluteValue Fixture.badAddressRecord) = net.nilIP
  /\ DNSRecord.RR Fixture.ParseIPv4 Fixture.badAddressRecord = rr
  /\ dns.isNULL (DNSRecord.RR Fixture.ParseIPv4 Fixture.badAddressRecord) = false
  /\ ServeDNS Fixture.unparsableAddress n r [] =
       ((dns.RcodeSuccess, None),
        [EvGet Fixture.testURL "mytoken";
         EvWriteMsg (authoritativeReply r dns.RcodeSuccess [rr])]).
Proof. repeat split; reflexivity. Qed.

(** C9.  The SOA record of a zone: owner name, primary nameserver and
    mailbox are the zone's name, nameserver name and mailbox name with a
    dot appended; serial, refresh, retry, expire and minimum are the
    zone's; the ttl is the zone's SOA ttl; type SOA, class IN. *)
Theorem DNSZone_RR_fields (z : DNSZone.t) :
  exists hdr,
    DNSZone.RR z =
      dns.SOA hdr
              (DNSZone.MName.Name (DNSZone.MName z) +:+ ".")
              (DNSZone.RName z +:+ ".")
              (DNSZone.Serial z) (DNSZone.Refresh z) (DNSZone.Retry z)
              (DNSZone.Expire z) (DNSZone.Minimum z)
    /\ dns.Name hdr = DNSZone.Name z +:+ "."
    /\ dns.Rrtype hdr = dns.TypeSOA
    /\ dns.Class hdr = dns.ClassINET
    /\ dns.Ttl hdr = DNSZone.TTL z.
Proof. eexists. repeat split; reflexivity. Qed.

(** C10.  A record whose type string is none of A, AAAA, PTR, CNAME, NS,
    SOA, MX, TXT is converted, without failing, to the NULL record. *)
Theorem RR_unsupported_type_NULL (P : string -> net.IP) (r : DNSRecord.t) :
  DNSRecord.Type_ r ∉ supportedRecordTypes ->
  DNSRecord.RR P r = dns.NULL0.
Proof.
  intros Hout. unfold supportedRecordTypes in Hout.
  repeat (apply not_elem_of_cons in Hout; destruct Hout as [? Hout]).
  unfold DNSRecord.RR.
  repeat match goal with
         | H : DNSRecord.Type_ r <> ?c |- context [String.eqb (DNSRecord.Type_ r) ?c] =>
             apply String.eqb_neq in H; rewrite H
         end.
  reflexivity.
Qed.

Lemma RR_unsupported_type_NULL_witness :
  DNSRecord.RR Fixture.ParseIPv4
               (DNSRecord.mk "BBBB" 8600 "x" "x" "test.example.org.") = dns.NULL0.
Proof.
  apply RR_unsupported_type_NULL. simpl.
  unfold supportedRecordTypes.
  repeat (apply not_elem_of_cons; split; [discriminate|]).
  apply not_elem_of_nil.
Defined.



(** C7.  A question whose type the active mode does not support (legacy:
    other than A, AAAA and PTR; rich: not SOA and outside the query-set
    mapping) fails with "request type not implemented" before any lookup
    is made, and for a name in a configured zone the handler treats it as
    any lookup error: the next plugin when fallthrough applies to the
    name, a server failure otherwise. *)
Theorem unsupported_type_not_implemented
    (E : Env) (n : Netbox) (r : dns.Msg) (tr : Trace) :
  let state := request.mkRequest r in
  let qname := Name E state in
  let qtype := QType state in
  let zone := Matches E (Zones n) qname in
  (if UsePlugin n
   then qtype <> dns.TypeSOA /\ DNSQueryReverseMap !! qtype = None
   else qtype <> dns.TypeA /\ qtype <> dns.TypeAAAA /\ qtype <> dns.TypePTR) ->
  (if UsePlugin n then queryDNSPlugin E n zone state tr else queryNative E n state tr)
    = (([], Some RequestTypeNotImplemented), tr)
  /\ (zone <> "" ->
      ServeDNS E n r tr =
        if Through E (Fall n) qname then NextOrFailure E r tr
        else dnserror dns.RcodeServerFailure state (Some RequestTypeNotImplemented) tr).
Proof.
  intros state qname qtype zone Hunsupported.
  assert (Hlookup :
    (if UsePlugin n then queryDNSPlugin E n zone state else queryNative E n state) tr
    = (([], Some RequestTypeNotImplemented), tr)).
  { destruct (UsePlugin n).
    - destruct Hunsupported as [Hsoa Hset].
      apply queryDNSPlugin_not_implemented; assumption.
    - destruct Hunsupported as (HA & HAAAA & HPTR).
      apply queryNative_not_implemented; assumption. }
  split.
  - destruct (UsePlugin n); exact Hlookup.
  - intros Hzone. unfold ServeDNS. fold state. fold qname. fold zone.
    apply String.eqb_neq in Hzone. rewrite Hzone.
    unfold mbind at 1. unfold M_bind at 1. rewrite Hlookup.
    destruct (Through E (Fall n) qname); reflexivity.
Qed.

Lemma unsupported_type_not_implemented_witness :
  let n := Fixture.netbox false [] in
  let r := Fixture.question "test.example.org." dns.TypeMX in
  queryNative Fixture.legacy n (request.mkRequest r) [] =
    (([], Some RequestTypeNotImplemented), [])
  /\ ServeDNS Fixture.legacy n r [] =
       ((dns.RcodeSuccess, Some RequestTypeNotImplemented),
        [EvWriteMsg (authoritativeReply r dns.RcodeServerFailure [])]).
Proof.
  intros n r.
  destruct (unsupported_type_not_implemented Fixture.legacy n r []) as [Hlookup Hserve].
  - simpl. repeat split; discriminate.
  - split.
    + exact Hlookup.
    + rewrite Hserve; [reflexivity|]. vm_compute. discriminate.
Defined.

Lemma error_reply (r : dns.Msg) (rcode : Z) :
  dns.setAuthoritative (dns.SetRcode dns.newMsg r rcode) true =
    authoritativeReply r rcode [].
Proof.
  unfold authoritativeReply, dns.setAuthoritative, dns.SetRcode, dns.SetReply.
  simpl. destruct (dns.Questions r); reflexivity.
Qed.

Lemma answer_reply (r : dns.Msg) (answers : list dns.RR) :
  dns.setAnswer (dns.setAuthoritative (dns.SetReply dns.newMsg r) true) answers =
    authoritativeReply r dns.RcodeSuccess answers.
Proof.
  unfold authoritativeReply, dns.setAnswer, dns.setAuthoritative, dns.SetReply.
  simpl. destruct (dns.Questions r); reflexivity.
Qed.

Lemma one_terminal_after_lookups (lookups : list Event) (final : Event) :
  forallb isLookup lookups = true ->
  isTerminal final = true ->
  List.filter isTerminal (lookups ++ [final]) = [final].
Proof.
  intros Hlookups Hfinal. rewrite List.filter_app. simpl. rewrite Hfinal.
  induction lookups as [|e rest IH]; simpl in *; [reflexivity|].
  apply andb_true_iff in Hlookups as [He Hrest].
  destruct e; simpl in *; try discriminate; auto.
Qed.

(** C2.  A question whose name lies in a configured zone ends in exactly
    one terminal action, after the lookups.  On a lookup error: the next
    plugin when fallthrough applies to the name, otherwise an
    authoritative server-failure response.  On success with no answer:
    the next plugin when fallthrough applies, otherwise an authoritative
    name-error response.  With answers: an authoritative response
    carrying them all, in order. *)
Theorem ServeDNS_disposition (E : Env) (n : Netbox) (r : dns.Msg) (tr : Trace) :
  let state := request.mkRequest r in
  let qname := Name E state in
  let zone := Matches E (Zones n) qname in
  zone <> "" ->
  exists answers err lookups final,
    (if UsePlugin n then queryDNSPlugin E n zone state tr else queryNative E n state tr)
      = ((answers, err), tr ++ lookups)
    /\ snd (ServeDNS E n r tr) = tr ++ lookups ++ [final]
    /\ List.filter isTerminal (lookups ++ [final]) = [final]
    /\ final =
         match err, answers with
         | Some _, _ =>
             if Through E (Fall n) qname then EvNext r
             else EvWriteMsg (authoritativeReply r dns.RcodeServerFailure [])
         | None, [] =>
             if Through E (Fall n) qname then EvNext r
             else EvWriteMsg (authoritativeReply r dns.RcodeNameError [])
         | None, _ :: _ =>
             EvWriteMsg (authoritativeReply r dns.RcodeSuccess answers)
         end.
Proof.
  intros state qname zone Hzone.
  assert (Hlookups : exists lookups,
    snd ((if UsePlugin n then queryDNSPlugin E n zone state else queryNative E n state) tr)
      = tr ++ lookups /\ forallb isLookup lookups = true).
  { destruct (UsePlugin n);
      [apply queryDNSPlugin_lookups | apply queryNative_lookups]. }
  destruct Hlookups as (lookups & Htrace & Hall).
  destruct ((if UsePlugin n then queryDNSPlugin E n zone state else queryNative E n state) tr)
    as [[answers err] tr1] eqn:Hlookup.
  simpl in Htrace. subst tr1.
  assert (Hserve : ServeDNS E n r tr =
    match err with
    | Some e =>
        if Through E (Fall n) qname then NextOrFailure E r (tr ++ lookups)
        else dnserror dns.RcodeServerFailure state (Some e) (tr ++ lookups)
    | None =>
        match answers with
        | [] =>
            if Through E (Fall n) qname then NextOrFailure E r (tr ++ lookups)
            else dnserror dns.RcodeNameError state None (tr ++ lookups)
        | _ :: _ =>
            ((dns.RcodeSuccess, None),
             (tr ++ lookups) ++ [EvWriteMsg (authoritativeReply r dns.RcodeSuccess answers)])
        end
    end).
  { unfold ServeDNS. fold state. fold qname. fold zone.
    apply String.eqb_neq in Hzone. rewrite Hzone.
    unfold mbind at 1. unfold M_bind at 1. rewrite Hlookup.
    destruct err as [e|].
    - destruct (Through E (Fall n) qname); reflexivity.
    - destruct answers as [|rr rest].
      + simpl. destruct (Through E (Fall n) qname); reflexivity.
      + cbn [length]. rewrite Nat2Z.inj_succ.
        destruct (Z.succ (Z.of_nat (length rest)) =? 0) eqn:Hlen;
          [apply Z.eqb_eq in Hlen; lia|].
        rewrite answer_reply. reflexivity. }
  exists answers, err, lookups.
  exists (match err, answers with
          | Some _, _ =>
              if Through E (Fall n) qname then EvNext r
              else EvWriteMsg (authoritativeReply r dns.RcodeServerFailure [])
          | None, [] =>
              if Through E (Fall n) qname then EvNext r
              else EvWriteMsg (authoritativeReply r dns.RcodeNameError [])
          | None, _ :: _ =>
              EvWriteMsg (authoritativeReply r dns.RcodeSuccess answers)
          end).
  split; [destruct (UsePlugin n); exact Hlookup|].
  rewrite Hserve. unfold NextOrFailure, dnserror, WriteMsg, exchange, mbind, M_bind, mret, M_ret.
  rewrite !error_reply.
  destruct err as [e|]; [|destruct answers as [|rr rest]];
    try destruct (Through E (Fall n) qname); simpl;
    rewrite <- app_assoc;
    (split; [reflexivity|split; [apply one_terminal_after_lookups; auto|reflexivity]]).
Qed.

Lemma ServeDNS_disposition_witness :
  let n := Fixture.netbox true [] in
  let r := Fixture.question "test.example.org." dns.TypeA in
  exists lookups final,
    snd (ServeDNS Fixture.noRecord n r []) = lookups ++ [final]
    /\ List.filter isTerminal (lookups ++ [final]) = [final]
    /\ final = EvWriteMsg (authoritativeReply r dns.RcodeNameError []).
Proof.
  intros n r.
  destruct (ServeDNS_disposition Fixture.noRecord n r [])
    as (answers & err & lookups & final & Hlookup & Hserve & Hone & Hfinal).
  - vm_compute. discriminate.
  - exists lookups, final. split; [exact Hserve|]. split; [exact Hone|].
    vm_compute in Hlookup. inversion Hlookup; subst. reflexivity.
Defined.

(** C4.  An A or AAAA question in rich mode whose first lookup succeeds
    with records among which there is a CNAME: when the lookups of the
    alias targets return errors, the handler's lookup still succeeds (no
    error reaches the disposition), and the answer sequence is exactly
    the conversion of the records of the first lookup. *)
Theorem alias_lookup_error_swallowed
    (E : Env) (n : Netbox) (zone : string) (state : request.Request)
    (tr tr1 : Trace) (records : list DNSRecord.t) :
  let querySet := default "" (DNSQueryReverseMap !! QType state) in
  QType state = dns.TypeA \/ QType state = dns.TypeAAAA ->
  queryRecord E n zone (Name E state) querySet tr = ((records, None), tr1) ->
  Exists (fun record => DNSRecord.Type_ record = DNSRecordTypeCNAME) records ->
  (forall record later,
      In record records ->
      DNSRecord.Type_ record = DNSRecordTypeCNAME ->
      snd (fst (queryRecord E n zone (DNSRecord.AbsoluteValue record) querySet
                            (tr1 ++ later))) <> None) ->
  fst (queryDNSPlugin E n zone state tr) =
    (map (DNSRecord.RR (ParseIP E)) records, None).
Proof.
  intros querySet Hq Hfirst Hcname Hsecond.
  assert (Hset : DNSQueryReverseMap !! QType state = Some querySet).
  { unfold querySet. destruct Hq as [-> | ->]; reflexivity. }
  rewrite (queryDNSPlugin_records E n zone state querySet tr).
  - rewrite Hfirst. reflexivity.
  - destruct Hq as [-> | ->]; discriminate.
  - exact Hset.
Qed.

Lemma alias_lookup_error_swallowed_witness :
  let n := Fixture.netbox true [] in
  let state := request.mkRequest (Fixture.question "test.example.org." dns.TypeA) in
  fst (queryDNSPlugin Fixture.aliasUnresolved n "example.org." state []) =
    ([dns.CNAME (dns.mkHeader "test.example.org." dns.TypeCNAME dns.ClassINET 8600)
                "mail1.example.org."], None).
Proof.
  intros n state.
  apply (alias_lookup_error_swallowed Fixture.aliasUnresolved n "example.org." state
           [] [EvGet Fixture.testURL "mytoken"] [Fixture.cnameRecord]).
  - left. reflexivity.
  - reflexivity.
  - constructor. reflexivity.
  - intros record later [<- | []] _. rewrite queryRecord_run. simpl. discriminate.
Defined.

Lemma RR_ttl (P : string -> net.IP) (r : DNSRecord.t) :
  dns.Ttl (dns.Header (DNSRecord.RR P r)) =
    if dns.isNULL (DNSRecord.RR P r) then 0 else DNSRecord.TTL r.
Proof.
  unfold DNSRecord.RR.
  repeat match goal with
         | |- context [if String.eqb ?x ?c then _ else _] =>
             destruct (String.eqb x c); [reflexivity|]
         end.
  destruct (String.eqb _ DNSRecordTypeMX).
  - destruct (gostrings.Split _ _) as [|pref [|host [|? ?]]]; try reflexivity.
    destruct (strconv.ParseInt pref 32); reflexivity.
  - try destruct (String.eqb _ DNSRecordTypeTXT); reflexivity.
Qed.

(** For a configured TTL of whole seconds in range, the legacy TTL is
    that number of seconds. *)
Lemma ttlSeconds_whole (E : Env) (seconds : Z) :
  0 <= seconds < 2 ^ 32 ->
  ttlSeconds E (seconds * time.Second) = seconds.
Proof.
  intros Hrange. unfold ttlSeconds.
  rewrite Z.rem_mul, Z.quot_mul by (unfold time.Second; lia).
  destruct (0 <=? seconds) eqn:Hlo; [|apply Z.leb_gt in Hlo; lia].
  destruct (seconds <? 2 ^ 32) eqn:Hhi; [|apply Z.ltb_ge in Hhi; lia].
  reflexivity.
Qed.

(** C6, as the code has it.  Whenever the conversion builds a record, the
    record carries the backend record's own TTL, zero included; when it
    gives up, it returns the NULL record with TTL 0; it never substitutes
    a default.  The rich path does not read the configured TTL, and its
    answers carry the TTLs the conversion gives.  The legacy path, whose
    records have no TTL of their own, emits one record for each item of
    the backend, each with the configured TTL (here a whole number of
    seconds). *)
Theorem ttl_own_value_and_legacy_default
    (E : Env) (n : Netbox) (zone : string) (state : request.Request) (tr : Trace)
    (r : DNSRecord.t) (seconds : Z) :
  0 <= seconds < 2 ^ 32 ->
  TTL n = seconds * time.Second ->
  let qname := Name E state in
  let header := fun rrtype => dns.mkHeader qname rrtype dns.ClassINET seconds in
  dns.Ttl (dns.Header (DNSRecord.RR (ParseIP E) r)) =
    (if dns.isNULL (DNSRecord.RR (ParseIP E) r) then 0 else DNSRecord.TTL r)
  /\ (forall ttl,
        queryDNSPlugin E (mkNetbox (Url n) (Token n) ttl (Fall n) (Zones n) (UsePlugin n))
                       zone state tr
        = queryDNSPlugin E n zone state tr)
  /\ (forall querySet,
        QType state <> dns.TypeSOA ->
        DNSQueryReverseMap !! QType state = Some querySet ->
        map (fun rr => dns.Ttl (dns.Header rr))
            (fst (fst (queryDNSPlugin E n zone state tr)))
        = map (fun record =>
                 if dns.isNULL (DNSRecord.RR (ParseIP E) record) then 0
                 else DNSRecord.TTL record)
              (fst (fst (queryRecord E n zone qname querySet tr))))
  /\ fst (fst (queryNative E n state tr)) =
       if QType state =? dns.TypeA then
         map (dns.A (header dns.TypeA))
             (fst (legacyQuery E tr (gostrings.TrimRight qname ".") familyIP4))
       else if QType state =? dns.TypeAAAA then
         map (dns.AAAA (header dns.TypeAAAA))
             (fst (legacyQuery E tr (gostrings.TrimRight qname ".") familyIP6))
       else if QType state =? dns.TypePTR then
         map (dns.PTR (header dns.TypePTR)) (fst (legacyQueryReverse E tr qname))
       else [].
Proof.
  intros Hrange HTTL qname header. split; [|split; [|split]].
  - apply RR_ttl.
  - intros ttl. apply queryDNSPlugin_config; reflexivity.
  - intros querySet Hsoa Hset.
    rewrite (queryDNSPlugin_records E n zone state querySet tr Hsoa Hset).
    fold qname.
    destruct (queryRecord E n zone qname querySet tr) as [[records err] tr1].
    simpl. rewrite List.map_map. apply List.map_ext. intros record. apply RR_ttl.
  - pose proof (ttlSeconds_whole E seconds Hrange) as Hs. rewrite <- HTTL in Hs.
    unfold queryNative, query, queryreverse, a, aaaa, ptr,
           exchange, mbind, M_bind, mret, M_ret.
    rewrite Hs. fold qname.
    destruct (QType state =? dns.TypeA);
      [|destruct (QType state =? dns.TypeAAAA);
        [|destruct (QType state =? dns.TypePTR); [|reflexivity]]];
      match goal with
      | |- context [let '(_, _) := ?x in _] => destruct x as [items err]
      end; reflexivity.
Qed.

Lemma ttl_own_value_and_legacy_default_witness :
  let state := request.mkRequest (Fixture.question "test.example.org." dns.TypeA) in
  fst (fst (queryNative Fixture.legacy (Fixture.netbox false []) state [])) =
    [dns.A (dns.mkHeader "test.example.org." dns.TypeA dns.ClassINET 1800)
           (Fixture.ParseIPv4 "10.0.0.2")]
  /\ map (fun rr => dns.Ttl (dns.Header rr))
         (fst (fst (queryDNSPlugin Fixture.aliasResolved (Fixture.netbox true [])
                                   "example.org." state []))) = [8600].
Proof.
  intros state.
  destruct (ttl_own_value_and_legacy_default Fixture.legacy (Fixture.netbox false [])
              "example.org." state [] Fixture.aRecord 1800) as (_ & _ & _ & Hlegacy);
    [lia|reflexivity|].
  destruct (ttl_own_value_and_legacy_default Fixture.aliasResolved
              (Fixture.netbox true []) "example.org." state [] Fixture.aRecord 1800)
    as (_ & _ & Hrich & _); [lia|reflexivity|].
  split.
  - rewrite Hlegacy. reflexivity.
  - rewrite (Hrich DNSQuerySetA); [reflexivity|discriminate|reflexivity].
Defined.

(** C6, as first stated, fails where the conversion gives up: a mail
    record with TTL 8600 whose preference is not a number converts to
    the NULL record, and the TTL emitted is 0. *)
Lemma conversion_gives_up_with_zero_ttl :
  let r := DNSRecord.mk "MX" 8600 "ten mail1" "ten mail1.example.org."
                        "example.org." in
  DNSRecord.TTL r = 8600
  /\ dns.Ttl (dns.Header (DNSRecord.RR Fixture.ParseIPv4 r)) = 0
  /\ dns.Ttl (dns.Header (DNSRecord.RR Fixture.ParseIPv4 r)) <> DNSRecord.TTL r.
Proof. repeat split. discriminate. Qed.

(** ** Further properties of the record model *)

Lemma Split_nonempty (s : string) (sep : ascii) : gostrings.Split s sep <> [].
Proof.
  destruct s as [|c rest]; simpl; [discriminate|].
  destruct (Ascii.eqb c sep); [discriminate|].
  destruct (gostrings.Split rest sep); discriminate.
Qed.

(** One field: the separator does not occur. *)
Lemma Split_one (s : string) (sep : ascii) :
  forall a, gostrings.Split s sep = [a] <-> s = a /\ occurs sep a = false.
Proof.
  induction s as [|c rest IH]; intros a; simpl.
  - split.
    + intros H. inversion H. auto.
    + intros [<- _]. reflexivity.
  - destruct (Ascii.eqb c sep) eqn:Hc.
    + split.
      * intros H. inversion H as [[Ha Hrest]].
        exfalso. exact (Split_nonempty rest sep Hrest).
      * intros [<- Hocc]. simpl in Hocc. rewrite Hc in Hocc. discriminate.
    + destruct (gostrings.Split rest sep) as [|hd tl] eqn:Hs;
        [exfalso; exact (Split_nonempty rest sep Hs)|].
      split.
      * intros H. inversion H; subst a tl.
        destruct (proj1 (IH hd) eq_refl) as [-> Hocc].
        split; [reflexivity|]. simpl. rewrite Hc. exact Hocc.
      * intros [<- Hocc]. simpl in Hocc. rewrite Hc in Hocc. simpl in Hocc.
        pose proof (proj2 (IH rest) (conj eq_refl Hocc)) as Hrest.
        inversion Hrest. reflexivity.
Qed.

(** Two fields: the separator occurs once, between them. *)
Lemma Split_two (s : string) (sep : ascii) :
  forall a b,
    gostrings.Split s sep = [a; b] <->
    s = a +:+ String sep b /\ occurs sep a = false /\ occurs sep b = false.
Proof.
  induction s as [|c rest IH]; intros a b; simpl.
  - split.
    + discriminate.
    + intros [H _]. destruct a; discriminate.
  - destruct (Ascii.eqb c sep) eqn:Hc.
    + apply Ascii.eqb_eq in Hc. subst c. split.
      * intros H. inversion H as [[Ha Hrest]].
        apply Split_one in Hrest as [-> Hocc]. auto.
      * intros (Hs & Ha & Hb). destruct a as [|c' a'].
        -- simpl in Hs. inversion Hs; subst rest. f_equal.
           apply Split_one. auto.
        -- simpl in Hs. inversion Hs; subst c'. simpl in Ha.
           rewrite Ascii.eqb_refl in Ha. discriminate.
    + destruct (gostrings.Split rest sep) as [|hd tl] eqn:Hs;
        [exfalso; exact (Split_nonempty rest sep Hs)|].
      split.
      * intros H. inversion H; subst a tl.
        destruct (proj1 (IH hd b) eq_refl) as (-> & Hhd & Hb).
        repeat split; auto. simpl. rewrite Hc. exact Hhd.
      * intros (Hrest & Ha & Hb). destruct a as [|c' a'].
        -- simpl in Hrest. inversion Hrest; subst c.
           rewrite Ascii.eqb_refl in Hc. discriminate.
        -- simpl in Hrest. inversion Hrest; subst c' rest.
           simpl in Ha. rewrite Hc in Ha. simpl in Ha.
           pose proof (proj2 (IH a' b) (conj eq_refl (conj Ha Hb))) as Hsplit.
           inversion Hsplit. reflexivity.
Qed.

Lemma RR_not_MX (P : string -> net.IP) (r : DNSRecord.t) h p host :
  DNSRecord.Type_ r <> DNSRecordTypeMX ->
  DNSRecord.RR P r <> dns.MX h p host.
Proof.
  intros Hne H. apply String.eqb_neq in Hne.
  unfold DNSRecord.RR in H. rewrite Hne in H.
  repeat match type of H with
         | (if ?b then _ else _) = _ => destruct b
         end; discriminate.
Qed.

Lemma RR_MX_characterised (P : string -> net.IP) (r : DNSRecord.t)
    (h : dns.RR_Header) (p : Z) (host : string) :
  DNSRecord.RR P r = dns.MX h p host <->
  DNSRecord.Type_ r = DNSRecordTypeMX
  /\ h = dns.mkHeader (DNSRecord.FQDN r) dns.TypeMX dns.ClassINET (DNSRecord.TTL r)
  /\ exists pref v,
       DNSRecord.AbsoluteValue r = pref +:+ String " " host
       /\ occurs " " pref = false /\ occurs " " host = false
       /\ strconv.ParseInt pref 32 = Some v
       /\ p = v mod 65536.
Proof.
  split.
  - intros H.
    destruct (String.eqb_spec (DNSRecord.Type_ r) DNSRecordTypeMX) as [HT|HT];
      [|exfalso; exact (RR_not_MX P r h p host HT H)].
    split; [exact HT|].
    rewrite (RR_MX P r HT) in H.
    destruct (gostrings.Split (DNSRecord.AbsoluteValue r) " ")
      as [|pref [|host' [|? ?]]] eqn:Hs; try discriminate.
    destruct (strconv.ParseInt pref 32) as [v|] eqn:Hp; [|discriminate].
    inversion H; subst. split; [reflexivity|].
    apply Split_two in Hs as (Hs & Hpref & Hhost).
    exists pref, v. auto.
  - intros (HT & -> & pref & v & Hs & Hpref & Hhost & Hp & ->).
    rewrite (RR_MX P r HT).
    rewrite (proj2 (Split_two _ _ pref host) (conj Hs (conj Hpref Hhost))).
    rewrite Hp. reflexivity.
Qed.

(** The conversion yields an MX record exactly for a record of type MX
    whose absolute value is a field without space, one space, and a
    second field without space, the first accepted by
    [ParseInt(_, 10, 32)]; the preference is the parsed number modulo
    65536 and the exchange is the second field. *)
Theorem RR_MX_iff (P : string -> net.IP) (r : DNSRecord.t)
    (h : dns.RR_Header) (p : Z) (host : string) :
  DNSRecord.RR P r = dns.MX h p host <->
  DNSRecord.Type_ r = DNSRecordTypeMX
  /\ h = dns.mkHeader (DNSRecord.FQDN r) dns.TypeMX dns.ClassINET (DNSRecord.TTL r)
  /\ exists pref v,
       DNSRecord.AbsoluteValue r = pref +:+ String " " host
       /\ occurs " " pref = false /\ occurs " " host = false
       /\ strconv.ParseInt pref 32 = Some v
       /\ p = v mod 65536.
Proof. apply RR_MX_characterised. Qed.

(** The preference of every MX record the conversion builds fits the
    16-bit field, and its exchange holds no space. *)
Theorem RR_MX_fields_bounded (P : string -> net.IP) (r : DNSRecord.t)
    (h : dns.RR_Header) (p : Z) (host : string) :
  DNSRecord.RR P r = dns.MX h p host ->
  0 <= p < 65536 /\ occurs " " host = false.
Proof.
  intros H.
  apply RR_MX_characterised in H as (_ & _ & pref & v & _ & _ & Hhost & _ & ->).
  split; [apply Z.mod_pos_bound; lia | exact Hhost].
Qed.

Lemma RR_MX_fields_bounded_witness :
  0 <= 10 < 65536 /\ occurs " " "mail1.example.org." = false.
Proof.
  apply (RR_MX_fields_bounded Fixture.ParseIPv4
           (DNSRecord.mk "MX" 8600 "10 mail1" "10 mail1.example.org." "example.org.")
           (dns.mkHeader "example.org." dns.TypeMX dns.ClassINET 8600)).
  reflexivity.
Defined.

(** The conversion never reads the backend's shorthand [Value]. *)
Theorem RR_ignores_Value (P : string -> net.IP) (r : DNSRecord.t) (value : string) :
  DNSRecord.RR P (DNSRecord.mk (DNSRecord.Type_ r) (DNSRecord.TTL r) value
                               (DNSRecord.AbsoluteValue r) (DNSRecord.FQDN r))
  = DNSRecord.RR P r.
Proof. destruct r. reflexivity. Qed.

(** Unless it gives up with the NULL record, the conversion builds a
    header owned by the record's fqdn, of class IN, with the record's
    TTL, and whose type code is the one of the record struct it wraps:
    the switch and [DNSRecordReverseMap] agree. *)
Theorem RR_header_agrees_with_record (P : string -> net.IP) (r : DNSRecord.t) :
  DNSRecord.RR P r = dns.NULL0
  \/ dns.Header (DNSRecord.RR P r) =
       dns.mkHeader (DNSRecord.FQDN r) (rrtypeOf (DNSRecord.RR P r))
                    dns.ClassINET (DNSRecord.TTL r).
Proof.
  unfold DNSRecord.RR.
  repeat match goal with
         | |- context [String.eqb (DNSRecord.Type_ r) ?c] =>
             destruct (String.eqb_spec (DNSRecord.Type_ r) c) as [->|?];
             [right; reflexivity|]
         end.
  destruct (String.eqb_spec (DNSRecord.Type_ r) DNSRecordTypeMX) as [->|?].
  - destruct (gostrings.Split _ _) as [|pref [|host [|? ?]]]; auto.
    destruct (strconv.ParseInt pref 32); auto.
  - try destruct (String.eqb_spec (DNSRecord.Type_ r) DNSRecordTypeTXT) as [->|?];
      auto.
Qed.

Lemma RR_unconverted_type (P : string -> net.IP) (r : DNSRecord.t) :
  DNSRecord.Type_ r ∉ convertedRecordTypes -> DNSRecord.RR P r = dns.NULL0.
Proof.
  intros Hout. unfold convertedRecordTypes in Hout.
  repeat (apply not_elem_of_cons in Hout; destruct Hout as [? Hout]).
  unfold DNSRecord.RR.
  repeat match goal with
         | H : DNSRecord.Type_ r <> ?c |- context [String.eqb (DNSRecord.Type_ r) ?c] =>
             apply String.eqb_neq in H; rewrite H
         end.
  reflexivity.
Qed.

(** When the conversion gives up.  It returns a NULL record exactly for
    a record whose type has no case in the switch (the type SOA
    included), and for an MX record whose absolute value is not two
    space-free fields around one space with a first field that
    [ParseInt] accepts.  The NULL record is always the zero one: it
    keeps neither the owner name nor the TTL of the record. *)
Theorem RR_NULL_iff (P : string -> net.IP) (r : DNSRecord.t) :
  (dns.isNULL (DNSRecord.RR P r) = true <->
     DNSRecord.Type_ r ∉ convertedRecordTypes
     \/ (DNSRecord.Type_ r = DNSRecordTypeMX
         /\ forall pref host,
              DNSRecord.AbsoluteValue r = pref +:+ String " " host ->
              occurs " " pref = false -> occurs " " host = false ->
              strconv.ParseInt pref 32 = None))
  /\ (dns.isNULL (DNSRecord.RR P r) = true -> DNSRecord.RR P r = dns.NULL0)
  /\ DNSRecord.RR P (DNSRecord.mk DNSRecordTypeSOA (DNSRecord.TTL r)
                                  (DNSRecord.Value r) (DNSRecord.AbsoluteValue r)
                                  (DNSRecord.FQDN r)) = dns.NULL0.
Proof.
  split; [split|split].
  - intros Hnull.
    destruct (decide (DNSRecord.Type_ r ∈ convertedRecordTypes)) as [Hin|Hout];
      [|left; exact Hout].
    right. unfold convertedRecordTypes in Hin.
    repeat (apply elem_of_cons in Hin as [HT | Hin];
            [try (unfold DNSRecord.RR in Hnull; rewrite HT in Hnull;
                  simpl in Hnull; discriminate)|]);
      [|apply elem_of_nil in Hin; contradiction].
    split; [exact HT|]. intros pref host Hs Hpref Hhost.
    rewrite (RR_MX P r HT) in Hnull.
    rewrite (proj2 (Split_two _ _ pref host) (conj Hs (conj Hpref Hhost))) in Hnull.
    destruct (strconv.ParseInt pref 32); [discriminate|reflexivity].
  - intros [Hout | (HT & Hbad)].
    + rewrite (RR_unconverted_type P r Hout). reflexivity.
    + rewrite (RR_MX P r HT).
      destruct (gostrings.Split (DNSRecord.AbsoluteValue r) " ")
        as [|pref [|host [|? ?]]] eqn:Hs; try reflexivity.
      apply Split_two in Hs as (Hs & Hpref & Hhost).
      rewrite (Hbad pref host Hs Hpref Hhost). reflexivity.
  - unfold DNSRecord.RR.
    repeat match goal with
           | |- context [if ?b then _ else _] => destruct b; [discriminate|]
           end.
    destruct (String.eqb _ DNSRecordTypeMX).
    + destruct (gostrings.Split _ _) as [|pref [|host [|? ?]]]; try reflexivity.
      destruct (strconv.ParseInt pref 32); [discriminate|reflexivity].
    + destruct (String.eqb _ DNSRecordTypeTXT); [discriminate|reflexivity].
  - reflexivity.
Qed.

(** ** Further properties of the lookups and of the handler *)

Section HandlerProperties.

Context (E : Env).

Local Ltac run := unfold mbind, M_bind, mret, M_ret, exchange in *.

(** The handler, outcome by outcome. *)
Lemma ServeDNS_run n r tr :
  ServeDNS E n r tr =
    let state := request.mkRequest r in
    let qname := Name E state in
    let zone := Matches E (Zones n) qname in
    if String.eqb zone "" then (nextPlugin E tr r, tr ++ [EvNext r])
    else
      let '((answers, err), tr1) :=
        (if UsePlugin n then queryDNSPlugin E n zone state
         else queryNative E n state) tr in
      match err, answers with
      | Some e, _ =>
          if Through E (Fall n) qname then (nextPlugin E tr1 r, tr1 ++ [EvNext r])
          else ((dns.RcodeSuccess, Some e),
                tr1 ++ [EvWriteMsg (authoritativeReply r dns.RcodeServerFailure [])])
      | None, [] =>
          if Through E (Fall n) qname then (nextPlugin E tr1 r, tr1 ++ [EvNext r])
          else ((dns.RcodeSuccess, None),
                tr1 ++ [EvWriteMsg (authoritativeReply r dns.RcodeNameError [])])
      | None, _ :: _ =>
          ((dns.RcodeSuccess, None),
           tr1 ++ [EvWriteMsg (authoritativeReply r dns.RcodeSuccess answers)])
      end.
Proof.
  unfold ServeDNS. cbv zeta.
  set (state := request.mkRequest r).
  set (zone := Matches E (Zones n) (Name E state)).
  destruct (String.eqb zone "") eqn:Hzone; [reflexivity|].
  unfold mbind at 1. unfold M_bind at 1.
  destruct ((if UsePlugin n then queryDNSPlugin E n zone state
             else queryNative E n state) tr) as [[answers err] tr1].
  unfold NextOrFailure, dnserror, WriteMsg. run.
  rewrite !error_reply.
  destruct err as [e|].
  - destruct (Through E (Fall n) _); reflexivity.
  - destruct answers as [|rr rest].
    + simpl. destruct (Through E (Fall n) _); reflexivity.
    + cbn [length]. rewrite Nat2Z.inj_succ.
      destruct (Z.succ (Z.of_nat (length rest)) =? 0) eqn:Hlen;
        [apply Z.eqb_eq in Hlen; lia|].
      rewrite answer_reply. reflexivity.
Qed.

(** The rich dispatcher exchanges nothing but GETs, the legacy one
    nothing but legacy queries. *)
Lemma queryDNSPlugin_gets n zone state tr :
  exists gets,
    snd (queryDNSPlugin E n zone state tr) = tr ++ gets /\
    forallb isGet gets = true.
Proof.
  destruct (Z.eq_dec (QType state) dns.TypeSOA) as [Hsoa|Hsoa].
  - rewrite queryDNSPlugin_zones, queryZone_run by assumption.
    match goal with
    | |- context [let '(_, _) := ?x in _] => destruct x as [zones err]
    end.
    eexists. split; reflexivity.
  - destruct (DNSQueryReverseMap !! QType state) as [querySet|] eqn:Hset.
    + rewrite (queryDNSPlugin_records E _ _ _ querySet) by assumption.
      rewrite queryRecord_run.
      match goal with
      | |- context [let '(_, _) := ?x in _] => destruct x as [records err]
      end.
      simpl. rewrite <- app_assoc. eexists. split; [reflexivity|].
      simpl. induction (List.filter _ records); simpl; auto.
    + rewrite queryDNSPlugin_not_implemented by assumption.
      exists []. simpl. rewrite app_nil_r. auto.
Qed.

Lemma queryNative_legacy_queries n state tr :
  exists queries,
    snd (queryNative E n state tr) = tr ++ queries /\
    forallb isLegacyQuery queries = true.
Proof.
  unfold queryNative, query, queryreverse. run.
  repeat match goal with
         | |- context [if ?b then _ else _] => destruct b
         | |- context [let '(_, _) := ?x in _] => destruct x
         end;
    simpl; (eexists; split; [reflexivity|reflexivity])
           || (exists []; rewrite app_nil_r; auto).
Qed.

Lemma app_cons_neq {X} (l : list X) (x : X) (l' : list X) : l ++ x :: l' <> l.
Proof.
  intros H. apply (f_equal (@length X)) in H.
  rewrite length_app in H. simpl in H. lia.
Qed.

Lemma DNSQueryReverseMap_keys (qtype : Z) :
  is_Some (DNSQueryReverseMap !! qtype) <->
  qtype ∈ [dns.TypeA; dns.TypeAAAA; dns.TypePTR; dns.TypeCNAME;
            dns.TypeNS; dns.TypeMX; dns.TypeTXT].
Proof.
  split.
  - unfold DNSQueryReverseMap. intros [v Hv].
    repeat (rewrite lookup_insert in Hv;
            destruct (decide _) as [<- | _] in Hv; [set_solver|]).
    rewrite lookup_empty in Hv. discriminate.
  - intros Hin.
    repeat (apply elem_of_cons in Hin as [-> | Hin]; [vm_compute; eauto|]).
    apply elem_of_nil in Hin. contradiction.
Qed.

End HandlerProperties.

Lemma lookups_of_mode (E : Env) (n : Netbox) (zone : string)
    (state : request.Request) (tr : Trace) :
  exists lookups,
    snd ((if UsePlugin n then queryDNSPlugin E n zone state
          else queryNative E n state) tr) = tr ++ lookups
    /\ forallb isLookup lookups = true
    /\ forallb (fun e => negb (if UsePlugin n then isLegacyQuery e else isGet e))
               lookups = true.
Proof.
  destruct (UsePlugin n).
  - destruct (queryDNSPlugin_gets E n zone state tr) as (gets & Htr & Hgets).
    exists gets. split; [exact Htr|].
    clear Htr. induction gets as [|e rest IH]; simpl in *; [auto|].
    apply andb_true_iff in Hgets as [He Hrest].
    destruct e; try discriminate. simpl. auto.
  - destruct (queryNative_legacy_queries E n state tr) as (queries & Htr & Hq).
    exists queries. split; [exact Htr|].
    clear Htr. induction queries as [|e rest IH]; simpl in *; [auto|].
    apply andb_true_iff in Hq as [He Hrest].
    destruct e; try discriminate; simpl; auto.
Qed.

(** Every question, in a configured zone or not, ends in exactly one
    terminal action, after the lookups.  When the handler delegates, it
    passes the request on unchanged and returns what the next plugin
    returns.  When it writes the response itself, it returns rcode 0, the
    response is authoritative, the returned error is non-nil exactly for
    a server failure, and the response carries answers exactly when its
    rcode is success. *)
Theorem ServeDNS_one_action_and_result
    (E : Env) (n : Netbox) (r : dns.Msg) (tr : Trace) :
  exists lookups final,
    snd (ServeDNS E n r tr) = tr ++ lookups ++ [final]
    /\ List.filter isTerminal (lookups ++ [final]) = [final]
    /\ match final with
       | EvNext r' =>
           r' = r /\ fst (ServeDNS E n r tr) = nextPlugin E (tr ++ lookups) r
       | EvWriteMsg m =>
           fst (fst (ServeDNS E n r tr)) = dns.RcodeSuccess
           /\ dns.Authoritative m = true
           /\ dns.Response m = true
           /\ (snd (fst (ServeDNS E n r tr)) <> None
               <-> dns.Rcode m = dns.RcodeServerFailure)
           /\ (dns.Answer m <> [] <-> dns.Rcode m = dns.RcodeSuccess)
       | _ => False
       end.
Proof.
  rewrite ServeDNS_run. cbv zeta.
  set (state := request.mkRequest r).
  set (zone := Matches E (Zones n) (Name E state)).
  destruct (String.eqb zone "").
  { exists [], (EvNext r). simpl. rewrite app_nil_r. auto. }
  destruct (lookups_of_mode E n zone state tr) as (lookups & Htr & Hlookups & _).
  destruct ((if UsePlugin n then queryDNSPlugin E n zone state
             else queryNative E n state) tr) as [[answers err] tr1].
  simpl in Htr. subst tr1. exists lookups.
  destruct err as [e|]; [|destruct answers as [|rr rest]];
    try destruct (Through E (Fall n) (Name E state));
    eexists; simpl; rewrite <- app_assoc;
    (split; [reflexivity|]);
    (split; [apply one_terminal_after_lookups; auto|]);
    simpl; repeat split; auto; try discriminate; try congruence.
Qed.

(** A question whose name lies in no configured zone is handed to the
    next plugin at once: no lookup is made and nothing is written. *)
Theorem ServeDNS_outside_zones_delegates
    (E : Env) (n : Netbox) (r : dns.Msg) (tr : Trace) :
  Matches E (Zones n) (Name E (request.mkRequest r)) = "" ->
  ServeDNS E n r tr = (nextPlugin E tr r, tr ++ [EvNext r]).
Proof.
  intros Hzone. rewrite ServeDNS_run. cbv zeta. rewrite Hzone. reflexivity.
Qed.

Lemma ServeDNS_outside_zones_delegates_witness :
  let r := Fixture.question "test.example.com." dns.TypeA in
  ServeDNS Fixture.aliasResolved (Fixture.netbox true []) r [] =
    ((dns.RcodeSuccess, None), [EvNext r]).
Proof.
  intros r.
  apply (ServeDNS_outside_zones_delegates Fixture.aliasResolved
           (Fixture.netbox true []) r []).
  reflexivity.
Defined.

(** With the DNS plugin in use the handler never calls the legacy
    lookups [query] and [queryreverse], whatever the question and
    whatever the backend answers. *)
Theorem ServeDNS_plugin_mode_no_legacy_call
    (E : Env) (n : Netbox) (r : dns.Msg) (tr : Trace) :
  UsePlugin n = true ->
  exists events,
    snd (ServeDNS E n r tr) = tr ++ events
    /\ forallb (fun e => negb (isLegacyQuery e)) events = true.
Proof.
  intros Hplugin. rewrite ServeDNS_run. cbv zeta.
  set (state := request.mkRequest r).
  set (zone := Matches E (Zones n) (Name E state)).
  destruct (String.eqb zone "").
  { exists [EvNext r]. split; reflexivity. }
  destruct (lookups_of_mode E n zone state tr) as (lookups & Htr & _ & Hmode).
  rewrite Hplugin in Hmode.
  destruct ((if UsePlugin n then queryDNSPlugin E n zone state
             else queryNative E n state) tr) as [[answers err] tr1].
  simpl in Htr. subst tr1.
  destruct err as [e|]; [|destruct answers as [|rr rest]];
    try destruct (Through E (Fall n) (Name E state));
    simpl; rewrite <- app_assoc;
    (eexists; split; [reflexivity|]);
    rewrite forallb_app, Hmode; reflexivity.
Qed.

Lemma ServeDNS_plugin_mode_no_legacy_call_witness :
  let r := Fixture.question "test.example.org." dns.TypeA in
  exists events,
    snd (ServeDNS Fixture.aliasResolved (Fixture.netbox true []) r []) = events
    /\ forallb (fun e => negb (isLegacyQuery e)) events = true.
Proof.
  intros r.
  apply (ServeDNS_plugin_mode_no_legacy_call Fixture.aliasResolved
           (Fixture.netbox true []) r []).
  reflexivity.
Defined.

(** Alias resolution stops after one hop.  A supported question other
    than SOA makes one lookup for the question name; an A or AAAA
    question makes one more for each CNAME among the records of that
    first lookup, for the CNAME's absolute value, in the same zone and
    under the same query set; any other question makes no further
    lookup.  What the alias lookups return never causes a lookup. *)
Theorem alias_lookups_single_hop
    (E : Env) (n : Netbox) (zone : string) (state : request.Request)
    (querySet : DNSQuerySet) (tr : Trace) :
  QType state <> dns.TypeSOA ->
  DNSQueryReverseMap !! QType state = Some querySet ->
  let records := fst (fst (queryRecord E n zone (Name E state) querySet tr)) in
  let aliases :=
    if (QType state =? dns.TypeA) || (QType state =? dns.TypeAAAA)
    then List.filter (fun record =>
                        String.eqb (DNSRecord.Type_ record) DNSRecordTypeCNAME)
                     records
    else [] in
  snd (queryDNSPlugin E n zone state tr) =
    tr ++ EvGet (recordsURL n zone (Name E state) querySet) (Token n)
       :: map (fun record =>
                 EvGet (recordsURL n zone (DNSRecord.AbsoluteValue record) querySet)
                       (Token n))
              aliases.
Proof.
  intros Hsoa Hset records aliases.
  rewrite (queryDNSPlugin_records E n zone state querySet tr Hsoa Hset).
  subst aliases records.
  rewrite queryRecord_run.
  match goal with
  | |- context [let '(_, _) := ?x in _] => destruct x as [records err]
  end.
  simpl. rewrite <- app_assoc. simpl. do 3 f_equal.
  unfold resolves.
  destruct ((QType state =? dns.TypeA) || (QType state =? dns.TypeAAAA)).
  - apply List.filter_ext. intros record. apply andb_true_r.
  - induction records as [|record rest IH]; simpl; [reflexivity|].
    rewrite andb_false_r. exact IH.
Qed.

Lemma alias_lookups_single_hop_witness :
  let n := Fixture.netbox true [] in
  let state := request.mkRequest (Fixture.question "test.example.org." dns.TypeA) in
  snd (queryDNSPlugin Fixture.aliasResolved n "example.org." state []) =
    [EvGet Fixture.testURL "mytoken"; EvGet Fixture.mail1URL "mytoken"].
Proof.
  intros n state.
  apply (alias_lookups_single_hop Fixture.aliasResolved n "example.org." state
           DNSQuerySetA []).
  - discriminate.
  - reflexivity.
Defined.

(** The backend is contacted exactly for the question types a dispatcher
    has a branch for: SOA, A, AAAA, PTR, CNAME, NS, MX and TXT with the
    DNS plugin; A, AAAA and PTR without.  For every other type the
    dispatcher returns "request type not implemented" and no answer. *)
Theorem backend_contacted_iff_type_supported
    (E : Env) (n : Netbox) (zone : string) (state : request.Request) (tr : Trace) :
  (snd (queryDNSPlugin E n zone state tr) = tr <-> QType state ∉ richQuestionTypes)
  /\ (snd (queryNative E n state tr) = tr <-> QType state ∉ legacyQuestionTypes)
  /\ (QType state ∉ richQuestionTypes ->
      fst (queryDNSPlugin E n zone state tr) = ([], Some RequestTypeNotImplemented))
  /\ (QType state ∉ legacyQuestionTypes ->
      fst (queryNative E n state tr) = ([], Some RequestTypeNotImplemented)).
Proof.
  assert (Hrich : QType state ∉ richQuestionTypes ->
                  QType state <> dns.TypeSOA /\ DNSQueryReverseMap !! QType state = None).
  { unfold richQuestionTypes. intros Hout.
    apply not_elem_of_cons in Hout as [Hsoa Hout]. split; [exact Hsoa|].
    destruct (DNSQueryReverseMap !! QType state) eqn:Hset; [|reflexivity].
    exfalso. apply Hout. apply DNSQueryReverseMap_keys. eauto. }
  assert (Hlegacy : QType state ∉ legacyQuestionTypes ->
                    QType state <> dns.TypeA /\ QType state <> dns.TypeAAAA
                    /\ QType state <> dns.TypePTR).
  { unfold legacyQuestionTypes. intros Hout.
    repeat (apply not_elem_of_cons in Hout as [? Hout]). auto. }
  split; [|split; [|split]].
  - split.
    + intros Htr Hin. unfold richQuestionTypes in Hin.
      apply elem_of_cons in Hin as [Hsoa | Hin].
      * rewrite queryDNSPlugin_zones, queryZone_run in Htr by assumption.
        match type of Htr with
        | context [let '(_, _) := ?x in _] => destruct x as [zones err]
        end.
        simpl in Htr. exact (app_cons_neq _ _ _ Htr).
      * assert (Hsoa : QType state <> dns.TypeSOA).
        { intros Heq. rewrite Heq in Hin. clear -Hin.
          repeat (apply elem_of_cons in Hin as [Hin | Hin]; [discriminate|]).
          apply elem_of_nil in Hin. contradiction. }
        apply DNSQueryReverseMap_keys in Hin as [querySet Hset].
        rewrite (queryDNSPlugin_records E n zone state querySet tr Hsoa Hset) in Htr.
        rewrite queryRecord_run in Htr.
        match type of Htr with
        | context [let '(_, _) := ?x in _] => destruct x as [records err]
        end.
        simpl in Htr. rewrite <- app_assoc in Htr. exact (app_cons_neq _ _ _ Htr).
    + intros Hout. destruct (Hrich Hout) as [Hsoa Hset].
      rewrite queryDNSPlugin_not_implemented by assumption. reflexivity.
  - split.
    + intros Htr Hin. unfold legacyQuestionTypes in Hin.
      unfold queryNative, query, queryreverse, exchange, mbind, M_bind, mret, M_ret in Htr.
      repeat (apply elem_of_cons in Hin as [Hin | Hin];
              [rewrite Hin in Htr; simpl in Htr;
               repeat match type of Htr with
                      | context [let '(_, _) := ?x in _] => destruct x
                      end;
               simpl in Htr; exact (app_cons_neq _ _ _ Htr)|]).
      apply elem_of_nil in Hin. contradiction.
    + intros Hout. destruct (Hlegacy Hout) as (HA & HAAAA & HPTR).
      rewrite queryNative_not_implemented by assumption. reflexivity.
  - intros Hout. destruct (Hrich Hout) as [Hsoa Hset].
    rewrite queryDNSPlugin_not_implemented by assumption. reflexivity.
  - intros Hout. destruct (Hlegacy Hout) as (HA & HAAAA & HPTR).
    rewrite queryNative_not_implemented by assumption. reflexivity.
Qed.

Lemma backend_contacted_iff_type_supported_witness :
  let n := Fixture.netbox true [] in
  let state := request.mkRequest (Fixture.question "test.example.org." 257) in
  queryDNSPlugin Fixture.aliasResolved n "example.org." state [] =
    (([], Some RequestTypeNotImplemented), []).
Proof.
  intros n state.
  destruct (backend_contacted_iff_type_supported Fixture.aliasResolved n
              "example.org." state []) as ([_ Htr] & _ & Hres & _).
  assert (Hout : QType state ∉ richQuestionTypes).
  { unfold richQuestionTypes.
    repeat (apply not_elem_of_cons; split; [discriminate|]).
    apply not_elem_of_nil. }
  specialize (Htr Hout). specialize (Hres Hout).
  destruct (queryDNSPlugin Fixture.aliasResolved n "example.org." state [])
    as [res tr']. simpl in *. subst. reflexivity.
Defined.

(** An SOA question is answered from the matched zone alone: the only
    lookup is one GET of the zones endpoint for that zone, the question
    name plays no part, every answer is an SOA record, one for each zone
    the backend returned, and the error is the zone lookup's. *)
Theorem SOA_question_answered_from_zone
    (E : Env) (n : Netbox) (zone : string) (state state' : request.Request)
    (tr : Trace) :
  QType state = dns.TypeSOA ->
  QType state' = dns.TypeSOA ->
  queryDNSPlugin E n zone state tr = queryDNSPlugin E n zone state' tr
  /\ snd (queryDNSPlugin E n zone state tr) = tr ++ [EvGet (zonesURL n zone) (Token n)]
  /\ fst (queryDNSPlugin E n zone state tr) =
       (map DNSZone.RR (fst (fst (queryZone E n zone tr))),
        snd (fst (queryZone E n zone tr)))
  /\ Forall (fun rr => rrtypeOf rr = dns.TypeSOA)
            (fst (fst (queryDNSPlugin E n zone state tr))).
Proof.
  intros Hsoa Hsoa'.
  rewrite !queryDNSPlugin_zones by assumption.
  split; [reflexivity|].
  rewrite queryZone_run.
  match goal with
  | |- context [let '(_, _) := ?x in _] => destruct x as [zones err]
  end.
  simpl. repeat split.
  induction zones; simpl; constructor; auto.
Qed.

Lemma SOA_question_answered_from_zone_witness :
  let n := Fixture.netbox true [] in
  let state := request.mkRequest (Fixture.question "www.example.org." dns.TypeSOA) in
  queryDNSPlugin ZoneFixture.zoneServed n "example.org." state [] =
    (([dns.SOA (dns.mkHeader "example.org." dns.TypeSOA dns.ClassINET 86400)
               "ns1.example.org." "admin.example.org."
               1742857987 43200 7200 2419200 3600], None),
     [EvGet ZoneFixture.zoneURL "mytoken"]).
Proof.
  intros n state.
  destruct (SOA_question_answered_from_zone ZoneFixture.zoneServed n "example.org."
              state state []) as (_ & Htr & Hres & _); [reflexivity|reflexivity|].
  destruct (queryDNSPlugin ZoneFixture.zoneServed n "example.org." state [])
    as [res tr']. simpl in Htr, Hres. subst. reflexivity.
Defined.

(** For a configured TTL of whole seconds in range: every record the
    legacy dispatcher returns is owned by the question name, has the
    question's type (in its header and as a record), class IN and the
    configured TTL; there is one record for each item the backend
    returned, and the backend's error is passed on with them. *)
Theorem queryNative_answers_match_question
    (E : Env) (n : Netbox) (state : request.Request) (tr : Trace) (seconds : Z) :
  0 <= seconds < 2 ^ 32 ->
  TTL n = seconds * time.Second ->
  Forall (fun rr =>
            dns.Header rr = dns.mkHeader (Name E state) (QType state)
                                         dns.ClassINET seconds
            /\ rrtypeOf rr = QType state)
         (fst (fst (queryNative E n state tr)))
  /\ (QType state = dns.TypeA \/ QType state = dns.TypeAAAA ->
      let family := if QType state =? dns.TypeA then familyIP4 else familyIP6 in
      let reply := legacyQuery E tr (gostrings.TrimRight (Name E state) ".") family in
      length (fst (fst (queryNative E n state tr))) = length (fst reply)
      /\ snd (fst (queryNative E n state tr)) = snd reply)
  /\ (QType state = dns.TypePTR ->
      let reply := legacyQueryReverse E tr (Name E state) in
      length (fst (fst (queryNative E n state tr))) = length (fst reply)
      /\ snd (fst (queryNative E n state tr)) = snd reply).
Proof.
  intros Hrange HTTL.
  pose proof (ttlSeconds_whole E seconds Hrange) as Hs. rewrite <- HTTL in Hs.
  unfold queryNative, query, queryreverse, a, aaaa, ptr,
         exchange, mbind, M_bind, mret, M_ret.
  rewrite Hs.
  split; [|split].
  - destruct (QType state =? dns.TypeA) eqn:HA;
      [apply Z.eqb_eq in HA|
       destruct (QType state =? dns.TypeAAAA) eqn:HAAAA;
       [apply Z.eqb_eq in HAAAA|
        destruct (QType state =? dns.TypePTR) eqn:HPTR;
        [apply Z.eqb_eq in HPTR|simpl; constructor]]];
      match goal with
      | |- context [let '(_, _) := ?x in _] => destruct x as [items err]
      end;
      simpl; induction items; simpl; constructor; auto;
      split; simpl; congruence.
  - intros [HA | HAAAA]; [rewrite HA|rewrite HAAAA]; simpl;
      match goal with
      | |- context [let '(_, _) := ?x in _] => destruct x as [items err]
      end;
      simpl; rewrite length_map; auto.
  - intros HPTR. rewrite HPTR. simpl.
    match goal with
    | |- context [let '(_, _) := ?x in _] => destruct x as [items err]
    end.
    simpl. rewrite length_map. auto.
Qed.

Lemma queryNative_answers_match_question_witness :
  let n := Fixture.netbox false [] in
  let state := request.mkRequest (Fixture.question "test.example.org." dns.TypeA) in
  Forall (fun rr =>
            dns.Header rr = dns.mkHeader "test.example.org." dns.TypeA
                                         dns.ClassINET 1800
            /\ rrtypeOf rr = dns.TypeA)
         (fst (fst (queryNative Fixture.legacy n state [])))
  /\ length (fst (fst (queryNative Fixture.legacy n state []))) = 1%nat
  /\ snd (fst (queryNative Fixture.legacy n state [])) = None.
Proof.
  intros n state.
  destruct (queryNative_answers_match_question Fixture.legacy n state [] 1800)
    as (Hall & Hcount & _); [lia|reflexivity|].
  destruct Hcount as [Hlen Herr]; [left; reflexivity|].
  split; [exact Hall|].
  split; [rewrite Hlen|rewrite Herr]; reflexivity.
Defined.

Lemma TrimRight_app (s : string) (c : ascii) :
  gostrings.TrimRight (s +:+ String c "") c = gostrings.TrimRight s c.
Proof.
  induction s as [|c' rest IH]; simpl.
  - rewrite Ascii.eqb_refl. reflexivity.
  - rewrite IH. reflexivity.
Qed.

Lemma TrimSuffix_app (s : string) (c : ascii) :
  gostrings.TrimSuffix (s +:+ String c "") c = s.
Proof.
  induction s as [|c' rest IH]; simpl.
  - rewrite Ascii.eqb_refl. reflexivity.
  - destruct rest as [|c'' rest']; simpl in *.
    + rewrite Ascii.eqb_refl. reflexivity.
    + rewrite IH. reflexivity.
Qed.

(** A record lookup does not depend on a trailing dot of the zone: the
    zone is sent without its trailing dots, while the fqdn is sent as it
    is. *)
Theorem queryRecord_zone_trailing_dot
    (E : Env) (n : Netbox) (zone fqdn : string) (querySet : DNSQuerySet) (tr : Trace) :
  queryRecord E n (zone +:+ ".") fqdn querySet tr = queryRecord E n zone fqdn querySet tr
  /\ snd (queryRecord E n (zone +:+ ".") fqdn querySet tr) =
       tr ++ [EvGet (Url n +:+ "/api/plugins/netbox-dns/records/?zone="
                           +:+ gostrings.TrimRight zone "." +:+ "&fqdn=" +:+ fqdn
                           +:+ "&active=true&" +:+ querySet)
                    (Token n)].
Proof.
  rewrite !queryRecord_run. unfold recordsURL. rewrite TrimRight_app.
  split; reflexivity.
Qed.

(** The zone name survives the trip to the backend and back.  For a
    fully-qualified zone the zone lookup asks for the name without the
    final dot, and the SOA record of a backend zone of that name is owned
    by the fully-qualified zone again. *)
Theorem zone_name_round_trip
    (E : Env) (n : Netbox) (base : string) (z : DNSZone.t) (tr : Trace) :
  DNSZone.Name z = base ->
  snd (queryZone E n (base +:+ ".") tr) =
    tr ++ [EvGet (Url n +:+ "/api/plugins/netbox-dns/zones/?name=" +:+ base
                        +:+ "&active=true")
                 (Token n)]
  /\ dns.Name (dns.Header (DNSZone.RR z)) = base +:+ ".".
Proof.
  intros Hname. rewrite queryZone_run. unfold zonesURL. rewrite TrimSuffix_app.
  split; [reflexivity|]. simpl. rewrite Hname. reflexivity.
Qed.

Lemma zone_name_round_trip_witness :
  snd (queryZone ZoneFixture.zoneServed (Fixture.netbox true []) "example.org." []) =
    [EvGet ZoneFixture.zoneURL "mytoken"]
  /\ dns.Name (dns.Header (DNSZone.RR ZoneFixture.exampleZone)) = "example.org.".
Proof.
  apply (zone_name_round_trip ZoneFixture.zoneServed (Fixture.netbox true [])
           "example.org" ZoneFixture.exampleZone []).
  reflexivity.
Defined.

(** The probe makes one GET of the status endpoint.  It reports ready
    exactly when the request went through, the status was 200 OK and the
    body decoded; only then does it touch the configuration, setting
    [UsePlugin] to whether the reported DNS plugin version is non-empty
    and leaving every other field as it was. *)
Theorem Ready_iff_status_decoded
    (E : Env) (decodeStatus : string -> status.t * option error)
    (n : Netbox) (tr : Trace) :
  let url := Url n +:+ "/api/status" in
  let ready := fst (fst (Ready E decodeStatus n tr)) in
  let n' := snd (fst (Ready E decodeStatus n tr)) in
  snd (Ready E decodeStatus n tr) = tr ++ [EvGet url (Token n)]
  /\ (ready = true <->
      exists resp,
        roundTrip E tr url (Token n) = inr resp
        /\ http.StatusCode resp = http.StatusOK
        /\ snd (decodeStatus (http.Body resp)) = None)
  /\ (ready = false -> n' = n)
  /\ (forall resp,
        ready = true -> roundTrip E tr url (Token n) = inr resp ->
        UsePlugin n' =
          negb (String.eqb
                  (statusApps.DNSPlugin
                     (status.Apps (fst (decodeStatus (http.Body resp))))) ""))
  /\ Url n' = Url n /\ Token n' = Token n /\ TTL n' = TTL n
  /\ Fall n' = Fall n /\ Zones n' = Zones n.
Proof.
  unfold Ready, get, exchange, mbind, M_bind, mret, M_ret. cbv zeta.
  destruct (roundTrip E tr _ _) as [err|resp] eqn:Hrt; simpl.
  { repeat split; auto; try discriminate.
    intros (resp & Hr & _). discriminate. }
  destruct (http.StatusCode resp =? http.StatusOK) eqn:Hs; simpl.
  - apply Z.eqb_eq in Hs.
    destruct (decodeStatus (http.Body resp)) as [s [err|]] eqn:Hd; simpl.
    + repeat split; auto; try discriminate.
      intros (resp' & Hr & _ & Hd'). inversion Hr; subst resp'.
      rewrite Hd in Hd'. discriminate.
    + repeat split; auto; try discriminate.
      * intros _. exists resp. rewrite Hd. auto.
      * intros resp' _ Hr. inversion Hr; subst resp'. rewrite Hd. reflexivity.
  - apply Z.eqb_neq in Hs.
    repeat split; auto; try discriminate.
    intros (resp' & Hr & Hs' & _). inversion Hr; subst resp'. contradiction.
Qed.

Lemma Ready_iff_status_decoded_witness :
  let n := Fixture.netbox false [] in
  fst (fst (Ready ProbeFixture.ready ProbeFixture.decodeStatus n [])) = true
  /\ snd (fst (Ready ProbeFixture.forbidden ProbeFixture.decodeStatus n [])) = n.
Proof.
  intros n.
  destruct (Ready_iff_status_decoded ProbeFixture.ready ProbeFixture.decodeStatus n [])
    as (_ & [_ Hready] & _).
  destruct (Ready_iff_status_decoded ProbeFixture.forbidden ProbeFixture.decodeStatus n [])
    as (_ & _ & Hsame & _).
  split.
  - apply Hready. exists (http.mkResponse 200 "with-plugin"). repeat split.
  - apply Hsame. reflexivity.
Defined.

(** A supported question other than SOA is answered with one resource
    record for each record of the lookup for the question name, in the
    backend's order; a record the conversion gives up on stands in the
    answer as the NULL record.  The error returned is that lookup's. *)
Theorem queryDNSPlugin_one_answer_per_record
    (E : Env) (n : Netbox) (zone : string) (state : request.Request)
    (querySet : DNSQuerySet) (tr : Trace) :
  QType state <> dns.TypeSOA ->
  DNSQueryReverseMap !! QType state = Some querySet ->
  let lookup := fst (queryRecord E n zone (Name E state) querySet tr) in
  fst (queryDNSPlugin E n zone state tr) =
    (map (DNSRecord.RR (ParseIP E)) (fst lookup), snd lookup)
  /\ length (fst (fst (queryDNSPlugin E n zone state tr))) = length (fst lookup).
Proof.
  intros Hsoa Hset lookup. subst lookup.
  rewrite (queryDNSPlugin_records E n zone state querySet tr Hsoa Hset).
  destruct (queryRecord E n zone (Name E state) querySet tr) as [[records err] tr1].
  simpl. rewrite length_map. split; reflexivity.
Qed.

Lemma queryDNSPlugin_one_answer_per_record_witness :
  let n := Fixture.netbox true [] in
  let state := request.mkRequest (Fixture.question "test.example.org." dns.TypeA) in
  length (fst (fst (queryDNSPlugin Fixture.unparsableAddress n "example.org."
                                   state []))) = 1%nat.
Proof.
  intros n state.
  destruct (queryDNSPlugin_one_answer_per_record Fixture.unparsableAddress n
              "example.org." state DNSQuerySetA []) as [_ Hlen].
  - discriminate.
  - reflexivity.
  - rewrite Hlen. reflexivity.
Defined.

Lemma RR_NULL_iff_witness :
  DNSRecord.RR Fixture.ParseIPv4
               (DNSRecord.mk "MX" 8600 "ten mail1" "ten mail1.example.org."
                             "example.org.") = dns.NULL0.
Proof.
  destruct (RR_NULL_iff Fixture.ParseIPv4
              (DNSRecord.mk "MX" 8600 "ten mail1" "ten mail1.example.org."
                            "example.org.")) as (_ & Hzero & _).
  apply Hzero. reflexivity.
Defined.
